(** * Dynamic scraper API: a shallow embedding of [app.py]

    The development follows the class [DynamicScraperAPI] and the two Flask
    routes of [app.py].  Python values that the code handles dynamically
    (the decoded inference payload, attribute values) are kept as tagged
    values; exceptions are an explicit error type; the instance state
    ([cached_schemas], the [lru_cache] of [analyze_page_structure]) and the
    calls made to outside services are threaded explicitly.

    Libraries the program calls (requests, BeautifulSoup's parser and CSS
    engine, [re], [json], the chat-completion client, the built-in [hash])
    are gathered in the record [World]; everything is proved for an
    arbitrary world. *)

From Stdlib Require Import ZArith String Ascii DecimalString.
From stdpp Require Import base option list strings gmap.

Local Open Scope string_scope.
Local Open Scope Z_scope.
Set Warnings "-register-all".

(* ===================================================================== *)
(** ** Exceptions and results *)
(* ===================================================================== *)

(** The exceptions the program can meet.  [ValueError] stands for the class
    and its subclasses (the handler of [scrape_endpoint] catches them all);
    [OtherError] is any other exception raised inside a library. *)
Inductive exn : Type :=
| ValueError (msg : string)
| IndexError
| KeyError (key : string)
| TypeError
| AttributeError
| OtherError (msg : string).

Inductive result (A : Type) : Type :=
| Ok (a : A)
| Err (e : exn).
Arguments Ok {A} a.
Arguments Err {A} e.

Definition is_Ok {A} (r : result A) : bool :=
  match r with Ok _ => true | Err _ => false end.

Definition rbind {A B} (r : result A) (k : A -> result B) : result B :=
  match r with
  | Ok a => k a
  | Err e => Err e
  end.

(* ===================================================================== *)
(** ** Python strings *)
(* ===================================================================== *)

(** A Python [str] is modelled as a Rocq [string], one [ascii] per
    character. *)

Module PyStr.

Definition is_upper (c : ascii) : bool :=
  let n := nat_of_ascii c in (Nat.leb 65 n && Nat.leb n 90)%bool.
Definition is_lower (c : ascii) : bool :=
  let n := nat_of_ascii c in (Nat.leb 97 n && Nat.leb n 122)%bool.
Definition is_digit (c : ascii) : bool :=
  let n := nat_of_ascii c in (Nat.leb 48 n && Nat.leb n 57)%bool.

(** The character class [[a-zA-Z0-9]]. *)
Definition is_alnum (c : ascii) : bool :=
  (is_lower c || is_upper c || is_digit c)%bool.

Fixpoint map_chars (f : ascii -> ascii) (s : string) : string :=
  match s with
  | EmptyString => EmptyString
  | String c s' => String (f c) (map_chars f s')
  end.

Fixpoint all_chars (p : ascii -> bool) (s : string) : bool :=
  match s with
  | EmptyString => true
  | String c s' => (p c && all_chars p s')%bool
  end.

(** [re.sub(r'[^a-zA-Z0-9]', '_', s)] *)
Definition sub_non_alnum (s : string) : string :=
  map_chars (fun c => if is_alnum c then c else "_"%char) s.

Definition is_slash (c : ascii) : bool := Ascii.eqb c "/".

(** [s.split('//')]: the pieces between successive, non-overlapping
    occurrences of the separator, scanned from the left.  [cur] is the
    piece being read. *)
Fixpoint split_go (cur : string) (s : string) : list string :=
  match s with
  | EmptyString => [cur]
  | String c s' =>
      match s' with
      | String c' rest =>
          if (is_slash c && is_slash c')%bool
          then cur :: split_go EmptyString rest
          else split_go (cur +:+ String c EmptyString) s'
      | EmptyString => split_go (cur +:+ String c EmptyString) s'
      end
  end.

Definition split_dslash (s : string) : list string := split_go EmptyString s.

(** ['//' in s] *)
Fixpoint contains_dslash (s : string) : bool :=
  match s with
  | EmptyString => false
  | String c s' =>
      match s' with
      | String c' _ => ((is_slash c && is_slash c') || contains_dslash s')%bool
      | EmptyString => false
      end
  end.

(** [str(n)] for an [int] *)
Definition of_int (n : Z) : string := NilZero.string_of_int (Z.to_int n).

(** [str.isspace] on one character *)
Definition is_space (c : ascii) : bool :=
  let n := nat_of_ascii c in
  ((Nat.leb 9 n && Nat.leb n 13) || (Nat.leb 28 n && Nat.leb n 32)
   || Nat.eqb n 133 || Nat.eqb n 160)%bool.

Fixpoint lstrip (s : string) : string :=
  match s with
  | EmptyString => EmptyString
  | String c s' => if is_space c then lstrip s' else s
  end.

(** [rstrip] by recursion from the right: a character is dropped when it
    is a space and everything after it was dropped. *)
Fixpoint rstrip (s : string) : string :=
  match s with
  | EmptyString => EmptyString
  | String c s' =>
      match rstrip s' with
      | EmptyString => if is_space c then EmptyString else String c EmptyString
      | r => String c r
      end
  end.

(** [s.strip()] *)
Definition strip (s : string) : string := rstrip (lstrip s).

(** [s[:n]] *)
Fixpoint take (n : nat) (s : string) : string :=
  match n, s with
  | O, _ => EmptyString
  | _, EmptyString => EmptyString
  | S n', String c s' => String c (take n' s')
  end.

Definition concat (l : list string) : string :=
  fold_right String.append EmptyString l.

(** [sep.join(l)] *)
Fixpoint join (sep : string) (l : list string) : string :=
  match l with
  | [] => EmptyString
  | [s] => s
  | s :: l' => s +:+ sep +:+ join sep l'
  end.

End PyStr.

(* ===================================================================== *)
(** ** Endpoint identifiers *)
(* ===================================================================== *)

Section EndpointId.

(** The built-in [hash] on strings. *)
Variable py_hash : string -> Z.

(** [_generate_endpoint_id] *)
Definition _generate_endpoint_id (url query : string) : result string :=
  match PyStr.split_dslash url with
  | _ :: piece :: _ =>
      let base := PyStr.sub_non_alnum piece in
      let query_hash := py_hash query mod 10000 in
      Ok ("scrape_" +:+ base +:+ "_" +:+ PyStr.of_int query_hash)
  | _ => Err IndexError
  end.

End EndpointId.

(* ===================================================================== *)
(** ** Parsed documents *)
(* ===================================================================== *)

(** An attribute value of a parsed element: a string, or (for [class] and
    the other multi-valued attributes) the list of its tokens. *)
Inductive attr_value : Type :=
| AStr (s : string)
| AList (l : list string).

(** A node of the parse tree: a text node ([NavigableString]) or an
    element ([Tag]).  The document itself is the element named
    ["[document]"]. *)
Inductive node : Type :=
| Text (s : string)
| Tag (name : string) (attrs : list (string * attr_value)) (contents : list node).

(** [dict.get] on a dictionary kept as the list of its items. *)
Fixpoint assoc {A} (key : string) (l : list (string * A)) : option A :=
  match l with
  | [] => None
  | (k, v) :: l' => if String.eqb k key then Some v else assoc key l'
  end.

Module Soup.

Definition is_tag (n : node) : bool :=
  match n with Tag _ _ _ => true | Text _ => false end.

Definition name (n : node) : option string :=
  match n with Tag nm _ _ => Some nm | Text _ => None end.

Definition has_name (nm : string) (n : node) : bool :=
  match n with Tag nm' _ _ => String.eqb nm' nm | Text _ => false end.

Definition has_name_in (nms : list string) (n : node) : bool :=
  existsb (fun nm => has_name nm n) nms.

(** [element.get(key)] *)
Definition get (n : node) (key : string) : option attr_value :=
  match n with
  | Tag _ attrs _ => assoc key attrs
  | Text _ => None
  end.

(** A node followed by everything below it, in document order. *)
Fixpoint subtree (n : node) : list node :=
  n :: match n with
       | Text _ => []
       | Tag _ _ cs => flat_map subtree cs
       end.

Definition descendants (n : node) : list node :=
  match n with
  | Text _ => []
  | Tag _ _ cs => flat_map subtree cs
  end.

(** [element.get_text()]: the text nodes below, concatenated. *)
Fixpoint get_text (n : node) : string :=
  match n with
  | Text s => s
  | Tag _ _ cs => PyStr.concat (List.map get_text cs)
  end.

(** [element.string] *)
Fixpoint string_of (n : node) : option string :=
  match n with
  | Text s => Some s
  | Tag _ _ [c] => string_of c
  | Tag _ _ _ => None
  end.

(** [find_all] with a predicate on elements *)
Definition find_all_by (p : node -> bool) (n : node) : list node :=
  List.filter (fun d => (is_tag d && p d)%bool) (descendants n).

(** [soup.find_all('tr')] *)
Definition find_all (nm : string) (n : node) : list node :=
  find_all_by (has_name nm) n.

(** [soup.find_all(['ul', 'ol'])] *)
Definition find_all_in (nms : list string) (n : node) : list node :=
  find_all_by (has_name_in nms) n.

Definition has_class_attr (n : node) : bool :=
  match get n "class" with Some _ => true | None => false end.

(** [soup.find_all(class_=True)] *)
Definition find_all_classed (n : node) : list node :=
  find_all_by has_class_attr n.

Definition has_id (v : string) (n : node) : bool :=
  match get n "id" with
  | Some (AStr s) => String.eqb s v
  | Some (AList l) => existsb (String.eqb v) l
  | None => false
  end.

Definition has_class (v : string) (n : node) : bool :=
  match get n "class" with
  | Some (AList l) => existsb (String.eqb v) l
  | Some (AStr s) => String.eqb s v
  | None => false
  end.

(** [find] is the first result of [find_all], or [None]. *)
Definition find_by (p : node -> bool) (n : node) : option node :=
  head (find_all_by p n).

Definition find (nm : string) (n : node) : option node := find_by (has_name nm) n.
Definition find_id (v : string) (n : node) : option node := find_by (has_id v) n.
Definition find_class (v : string) (n : node) : option node := find_by (has_class v) n.

(** Text nodes in document order: the candidates of
    [find_all(string=...)]. *)
Definition strings (n : node) : list node :=
  List.filter (fun d => negb (is_tag d)) (descendants n).

End Soup.

(** [a or b] on optional elements (an element is always truthy). *)
Definition or_else {A} (a b : option A) : option A :=
  match a with Some _ => a | None => b end.

(** [max(l, key=...)] on a non-empty list: the first element whose key is
    maximal. *)
Fixpoint max_from {A} (key : A -> nat) (best : A) (l : list A) : A :=
  match l with
  | [] => best
  | x :: l' => if Nat.ltb (key best) (key x) then max_from key x l' else max_from key best l'
  end.

Definition py_max {A} (key : A -> nat) (l : list A) : option A :=
  match l with
  | [] => None
  | x :: l' => Some (max_from key x l')
  end.

(* ===================================================================== *)
(** ** Structure analysis *)
(* ===================================================================== *)

Record ElementInfo := { el_count : Z; el_sample : string }.
Record ListInfo := { li_type : string; li_items_count : Z; li_sample : option string }.
Record TableInfo := { tb_headers : list string; tb_rows_count : Z }.

(** The dictionary built by [_generate_page_schema]; [elements] keeps the
    order in which the class names were first met. *)
Record PageSchema := {
  elements : list (string * ElementInfo);
  lists : list ListInfo;
  tables : list TableInfo;
  forms : list unit
}.

Record NavLink := { nav_text : string; nav_href : option attr_value }.

Record PageStructure := {
  title : option string;
  headings : list string;
  main_content : option string;
  navigation : option (list NavLink);
  schema : PageSchema
}.

(** The loop body of [_identify_main_content]: one tag of [content_tags]. *)
Definition main_content_step (soup : node) (main_content : option node) (tag : string)
  : option node :=
  match Soup.find_all tag soup with
  | [] => main_content
  | candidates => py_max (fun x => String.length (Soup.get_text x)) candidates
  end.

(** [_identify_main_content] *)
Definition _identify_main_content (soup : node) : option string :=
  let main_content :=
    or_else (Soup.find "main" soup)
      (or_else (Soup.find_id "main" soup) (Soup.find_class "main" soup)) in
  let main_content :=
    match main_content with
    | Some _ => main_content
    | None =>
        let content_tags := ["article"; "section"; "div"] in
        fold_left (main_content_step soup) content_tags main_content
    end in
  match main_content with
  | Some m => Some (Soup.get_text m)
  | None => None
  end.

(** [_extract_navigation] *)
Definition _extract_navigation (soup : node) : option (list NavLink) :=
  let nav :=
    or_else (Soup.find "nav" soup)
      (or_else (Soup.find_class "navigation" soup) (Soup.find_id "navigation" soup)) in
  match nav with
  | Some nav =>
      Some (List.map (fun a => {| nav_text := Soup.get_text a; nav_href := Soup.get a "href" |})
              (Soup.find_all "a" nav))
  | None => None
  end.

(** [element.get('class')[0]] *)
Definition first_class (element : node) : result string :=
  match Soup.get element "class" with
  | Some (AList (c :: _)) => Ok c
  | Some (AList []) => Err IndexError
  | Some (AStr (String c _)) => Ok (String c EmptyString)
  | Some (AStr EmptyString) => Err IndexError
  | None => Err TypeError
  end.

Fixpoint incr_count (class_name : string) (els : list (string * ElementInfo))
  : list (string * ElementInfo) :=
  match els with
  | [] => []
  | (k, info) :: els' =>
      if String.eqb k class_name
      then (k, {| el_count := el_count info + 1; el_sample := el_sample info |}) :: els'
      else (k, info) :: incr_count class_name els'
  end.

(** The body of the first loop of [_generate_page_schema]. *)
Definition schema_element_step (els : list (string * ElementInfo)) (element : node)
  : result (list (string * ElementInfo)) :=
  rbind (first_class element) (fun class_name =>
    match assoc class_name els with
    | None =>
        Ok (els ++ [(class_name,
                     {| el_count := 1;
                        el_sample := PyStr.take 100 (Soup.get_text element) |})])%list
    | Some _ => Ok (incr_count class_name els)
    end).

Fixpoint schema_elements (els : list (string * ElementInfo)) (l : list node)
  : result (list (string * ElementInfo)) :=
  match l with
  | [] => Ok els
  | element :: l' => rbind (schema_element_step els element) (fun els' => schema_elements els' l')
  end.

Definition schema_list (ul : node) : ListInfo :=
  {| li_type := default "" (Soup.name ul);
     li_items_count := Z.of_nat (length (Soup.find_all "li" ul));
     li_sample := option_map Soup.get_text (Soup.find "li" ul) |}.

Definition schema_table (table : node) : TableInfo :=
  let headers := List.map Soup.get_text (Soup.find_all "th" table) in
  {| tb_headers := headers;
     tb_rows_count :=
       match headers with
       | _ :: _ => Z.of_nat (length (Soup.find_all "tr" table)) - 1
       | [] => Z.of_nat (length (Soup.find_all "tr" table))
       end |}.

(** [_generate_page_schema] *)
Definition _generate_page_schema (soup : node) : result PageSchema :=
  rbind (schema_elements [] (Soup.find_all_classed soup)) (fun els =>
    Ok {| elements := els;
          lists := List.map schema_list (Soup.find_all_in ["ul"; "ol"] soup);
          tables := List.map schema_table (Soup.find_all "table" soup);
          forms := [] |}).

(** The body of [analyze_page_structure] once the page is parsed. *)
Definition page_structure (soup : node) : result PageStructure :=
  let title :=
    match Soup.find "title" soup with
    | Some t => Soup.string_of t
    | None => None
    end in
  let headings := List.map Soup.get_text (Soup.find_all_in ["h1"; "h2"; "h3"] soup) in
  let main_content := _identify_main_content soup in
  let navigation := _extract_navigation soup in
  rbind (_generate_page_schema soup) (fun schema =>
    Ok {| title := title; headings := headings; main_content := main_content;
          navigation := navigation; schema := schema |}).

(* ===================================================================== *)
(** ** Decoded JSON values *)
(* ===================================================================== *)

(** What [json.loads] returns.  Numbers are kept as their literal: the
    program never computes with them. *)
Inductive json : Type :=
| JNull
| JBool (b : bool)
| JNum (lit : string)
| JStr (s : string)
| JArr (items : list json)
| JObj (fields : list (string * json)).

Module Py.

(** [for x in v] *)
Definition iter (v : json) : result (list json) :=
  match v with
  | JArr items => Ok items
  | JObj fields => Ok (List.map (fun kv => JStr (fst kv)) fields)
  | JStr s => Ok (List.map (fun c => JStr (String c EmptyString)) (list_ascii_of_string s))
  | JNull | JBool _ | JNum _ => Err TypeError
  end.

(** [v[key]] for a string key *)
Definition getitem (v : json) (key : string) : result json :=
  match v with
  | JObj fields =>
      match assoc key fields with
      | Some x => Ok x
      | None => Err (KeyError key)
      end
  | _ => Err TypeError
  end.

(** [v == s] for a string literal [s] *)
Definition eq_str (v : json) (s : string) : bool :=
  match v with
  | JStr s' => String.eqb s' s
  | _ => false
  end.

(** A library function that insists on a [str] argument. *)
Definition as_str (v : json) : result string :=
  match v with
  | JStr s => Ok s
  | _ => Err TypeError
  end.

(** The selector given to [soup.select]: the CSS engine caches its
    argument, then reads it as a string, so a list or an object is
    refused as unhashable and any other value that is not a string has no
    string method. *)
Definition css_arg (v : json) : result string :=
  match v with
  | JStr s => Ok s
  | JNull | JBool _ | JNum _ => Err AttributeError
  | JArr _ | JObj _ => Err TypeError
  end.

(** [element.get(key)] where [key] is any decoded value: on an element
    it is a dictionary lookup (lists and objects are unhashable); a text
    node has no [get]. *)
Definition element_get (element : node) (key : json) : result (option attr_value) :=
  match element with
  | Text _ => Err AttributeError
  | Tag _ attrs _ =>
      match key with
      | JStr k => Ok (assoc k attrs)
      | JNull | JBool _ | JNum _ => Ok None
      | JArr _ | JObj _ => Err TypeError
      end
  end.

(** [if value:] on what extraction yields. *)
Definition truthy (value : option attr_value) : bool :=
  match value with
  | Some (AStr s) => negb (String.eqb s "")
  | Some (AList l) => match l with [] => false | _ :: _ => true end
  | None => false
  end.

End Py.

(* ===================================================================== *)
(** ** The outside world and the instance state *)
(* ===================================================================== *)

(** The libraries and services the program calls.  [requests_get] and
    [chat_completion] take the number of calls made before, so that a page
    or an answer may change from one call to the next; an HTTP error
    status is still a response ([Ok]), as the program never checks it.
    [py_hash] is the built-in [hash], one function for the life of the
    process. *)
Record World := {
  requests_get : nat -> string -> result string;
  parse_html : string -> node;
  css_select : node -> string -> result (list node);
  re_compile : string -> result (string -> bool);
  chat_completion : nat -> string -> result string;
  json_loads : string -> result json;
  json_dumps : PageStructure -> string;
  py_hash : string -> Z
}.

Record Parameters := { format : string; cache_timeout : Z }.

Record EndpointConfig := {
  cfg_url : string;
  cfg_selectors : json;
  cfg_query : string;
  cfg_method : string;
  cfg_parameters : Parameters
}.

Record ResultEntry := { r_type : json; r_value : attr_value }.

(** The state of the [DynamicScraperAPI] instance, with the log of the
    calls made outside: [lru] is the cache of [analyze_page_structure],
    most recently used first; [fetches] lists the fetched urls, latest
    first; [completions] counts the inference calls. *)
Record state := {
  cached_schemas : gmap string EndpointConfig;
  lru : list (string * PageStructure);
  fetches : list string;
  completions : nat
}.

Definition init_state : state :=
  {| cached_schemas := ∅; lru := []; fetches := []; completions := 0 |}.

(** Computations that read and change the state and may raise. *)
Definition M (A : Type) : Type := state -> result A * state.

Definition ret {A} (a : A) : M A := fun st => (Ok a, st).

Definition lift {A} (r : result A) : M A := fun st => (r, st).

Definition bind {A B} (m : M A) (k : A -> M B) : M B :=
  fun st =>
    match m st with
    | (Ok a, st') => k a st'
    | (Err e, st') => (Err e, st')
    end.

Notation "'do' x <- m ;; k" := (bind m (fun x => k))
  (at level 10, x name, m at level 99, k at level 200).

(** [functools.lru_cache(maxsize=100)] *)
Module Lru.

Definition maxsize : nat := 100.

Definition lookup {V} (key : string) (c : list (string * V)) : option V :=
  assoc key c.

Definition remove {V} (key : string) (c : list (string * V)) : list (string * V) :=
  List.filter (fun kv => negb (String.eqb (fst kv) key)) c.

(** A hit makes the entry the most recently used. *)
Definition touch {V} (key : string) (v : V) (c : list (string * V)) : list (string * V) :=
  (key, v) :: remove key c.

(** A new entry takes the place of the least recently used one when the
    cache is full. *)
Definition store {V} (key : string) (v : V) (c : list (string * V)) : list (string * V) :=
  if Nat.leb maxsize (length c) then (key, v) :: removelast c else (key, v) :: c.

End Lru.

Definition count_completion (st : state) : state :=
  {| cached_schemas := cached_schemas st; lru := lru st;
     fetches := fetches st; completions := S (completions st) |}.

Definition log_fetch (url : string) (st : state) : state :=
  {| cached_schemas := cached_schemas st; lru := lru st;
     fetches := url :: fetches st; completions := completions st |}.

Definition set_lru (c : list (string * PageStructure)) (st : state) : state :=
  {| cached_schemas := cached_schemas st; lru := c;
     fetches := fetches st; completions := completions st |}.

Definition set_cached_schemas (m : gmap string EndpointConfig) (st : state) : state :=
  {| cached_schemas := m; lru := lru st;
     fetches := fetches st; completions := completions st |}.

(* ===================================================================== *)
(** ** The class [DynamicScraperAPI] *)
(* ===================================================================== *)

Definition dquote : string := String (ascii_of_nat 34) EmptyString.
Definition newline : string := String (ascii_of_nat 10) EmptyString.
Definition quoted (s : string) : string := dquote +:+ s +:+ dquote.

(** The lines of the template of [_create_selector_prompt] that follow the
    user query. *)
Definition prompt_format : list string :=
  [ "        Return only a JSON object with the following structure:";
    "        {";
    "            " +:+ quoted "selectors" +:+ ": [";
    "                {";
    "                    " +:+ quoted "type" +:+ ": " +:+ quoted "css|xpath" +:+ ",";
    "                    " +:+ quoted "selector" +:+ ": " +:+ quoted "string" +:+ ",";
    "                    " +:+ quoted "attribute" +:+ ": " +:+ quoted "text|href|src|etc" +:+ ",";
    "                    " +:+ quoted "description" +:+ ": "
      +:+ quoted "what this selector extracts";
    "                }";
    "            ],";
    "            " +:+ quoted "preprocessing" +:+ ": [],";
    "            " +:+ quoted "postprocessing" +:+ ": []";
    "        }";
    "        " ].

Section Scraper.

Context (W : World).

(** [requests.get(url)], logged. *)
Definition fetch (url : string) : M string :=
  fun st =>
    (requests_get W (length (fetches st)) url, log_fetch url st).

(** [openai_client.chat.completions.create(...)] and the content of its
    first choice, counted. *)
Definition complete (prompt : string) : M string :=
  fun st =>
    (chat_completion W (completions st) prompt, count_completion st).

(** The body of [analyze_page_structure], run on a cache miss. *)
Definition analyze_uncached (url : string) : M PageStructure :=
  do text <- fetch url ;;
  let soup := parse_html W text in
  lift (page_structure soup).

(** [analyze_page_structure] under its [lru_cache]: a hit returns the
    stored value; a miss runs the body and stores what it returns (an
    exception stores nothing). *)
Definition analyze_page_structure (url : string) : M PageStructure :=
  fun st =>
    match Lru.lookup url (lru st) with
    | Some structure => (Ok structure, set_lru (Lru.touch url structure (lru st)) st)
    | None =>
        match analyze_uncached url st with
        | (Ok structure, st') => (Ok structure, set_lru (Lru.store url structure (lru st')) st')
        | (Err e, st') => (Err e, st')
        end
    end.

(** [_create_selector_prompt] *)
Definition _create_selector_prompt (structure : PageStructure) (query : string) : string :=
  PyStr.join newline
    ([ "";
       "        Given the following webpage structure and user query, generate appropriate CSS/XPath selectors:";
       "";
       "        Webpage Structure:";
       "        " +:+ json_dumps W structure;
       "";
       "        User Query:";
       "        " +:+ query;
       "" ] ++ prompt_format)%list.

(** The end of [generate_api_endpoint]: build the configuration, derive
    the identifier and store the configuration under it. *)
Definition register (url query : string) (selectors : json) : M (string * EndpointConfig) :=
  let endpoint_config :=
    {| cfg_url := url;
       cfg_selectors := selectors;
       cfg_query := query;
       cfg_method := "GET";
       cfg_parameters := {| format := "json"; cache_timeout := 3600 |} |} in
  do endpoint_id <- lift (_generate_endpoint_id (py_hash W) url query) ;;
  fun st =>
    (Ok (endpoint_id, endpoint_config),
     set_cached_schemas (<[endpoint_id := endpoint_config]> (cached_schemas st)) st).

(** [generate_api_endpoint] *)
Definition generate_api_endpoint (url query : string) : M (string * EndpointConfig) :=
  do structure <- analyze_page_structure url ;;
  let prompt := _create_selector_prompt structure query in
  do content <- complete prompt ;;
  do selectors <- lift (json_loads W content) ;;
  register url query selectors.

(** The start of [execute_scraping]: look the identifier up. *)
Definition resolve (endpoint_id : string) : M EndpointConfig :=
  fun st =>
    match cached_schemas st !! endpoint_id with
    | None => (Err (ValueError "Invalid endpoint ID"), st)
    | Some config => (Ok config, st)
    end.

(** The elements a selector matches. *)
Definition select_elements (soup : node) (selector : json) : result (list node) :=
  rbind (Py.getitem selector "type") (fun ty =>
    if Py.eq_str ty "css"
    then
      rbind (Py.getitem selector "selector") (fun sel =>
        rbind (Py.css_arg sel) (fun s => css_select W soup s))
    else
      rbind (Py.getitem selector "selector") (fun sel =>
        rbind (Py.as_str sel) (fun s =>
          rbind (re_compile W s) (fun matches =>
            Ok (List.filter (fun t => matches (Soup.get_text t)) (Soup.strings soup)))))).

(** The value read from a matched element. *)
Definition extract_value (selector : json) (element : node) : result (option attr_value) :=
  rbind (Py.getitem selector "attribute") (fun attribute =>
    if Py.eq_str attribute "text"
    then Ok (Some (AStr (PyStr.strip (Soup.get_text element))))
    else Py.element_get element attribute).

(** The body of the inner loop of [execute_scraping]. *)
Definition scrape_element (selector : json) (results : list ResultEntry) (element : node)
  : result (list ResultEntry) :=
  rbind (extract_value selector element) (fun value =>
    match value with
    | Some v =>
        if Py.truthy value
        then
          rbind (Py.getitem selector "description") (fun description =>
            Ok (results ++ [{| r_type := description; r_value := v |}])%list)
        else Ok results
    | None => Ok results
    end).

Fixpoint scrape_elements (selector : json) (results : list ResultEntry) (els : list node)
  : result (list ResultEntry) :=
  match els with
  | [] => Ok results
  | element :: els' =>
      rbind (scrape_element selector results element) (fun results' =>
        scrape_elements selector results' els')
  end.

(** The body of the outer loop of [execute_scraping]. *)
Definition scrape_selector (soup : node) (results : list ResultEntry) (selector : json)
  : result (list ResultEntry) :=
  rbind (select_elements soup selector) (fun els => scrape_elements selector results els).

Fixpoint scrape_selectors (soup : node) (results : list ResultEntry) (sels : list json)
  : result (list ResultEntry) :=
  match sels with
  | [] => Ok results
  | selector :: sels' =>
      rbind (scrape_selector soup results selector) (fun results' =>
        scrape_selectors soup results' sels')
  end.

(** [execute_scraping] *)
Definition execute_scraping (endpoint_id : string) : M (list ResultEntry) :=
  do config <- resolve endpoint_id ;;
  do text <- fetch (cfg_url config) ;;
  let soup := parse_html W text in
  lift (rbind (Py.iter (cfg_selectors config)) (fun sels => scrape_selectors soup [] sels)).

End Scraper.

(* ===================================================================== *)
(** ** The routes *)
(* ===================================================================== *)

Inductive body : Type :=
| ErrorBody (error : string)
| ResultsBody (results : list ResultEntry)
| AnalyzeBody (endpoint : string) (config : EndpointConfig) (result : list ResultEntry).

Record response := { status : Z; payload : body }.

(** [not s] on a field of the request body that may be missing. *)
Definition falsy_field (s : option string) : bool :=
  match s with
  | None => true
  | Some s => String.eqb s ""
  end.

Section Routes.

Context (W : World).

(** [POST /api/analyze].  An exception that leaves the handler is the
    [Err] of the result. *)
Definition analyze_webpage (url query : option string) : M response :=
  if (falsy_field url || falsy_field query)%bool
  then ret {| status := 400; payload := ErrorBody "Missing url or query" |}
  else
    let url := default "" url in
    let query := default "" query in
    do created <- generate_api_endpoint W url query ;;
    do results <- execute_scraping W (fst created) ;;
    ret {| status := 200;
           payload := AnalyzeBody ("/api/scrape/" +:+ fst created) (snd created) results |}.

(** [GET /api/scrape/<endpoint_id>] *)
Definition scrape_endpoint (endpoint_id : string) : M response :=
  fun st =>
    match execute_scraping W endpoint_id st with
    | (Ok results, st') => (Ok {| status := 200; payload := ResultsBody results |}, st')
    | (Err (ValueError msg), st') => (Ok {| status := 404; payload := ErrorBody msg |}, st')
    | (Err e, st') => (Err e, st')
    end.

End Routes.

(** A request to the service and the run of a sequence of requests. *)
Inductive request : Type :=
| PostAnalyze (url query : option string)
| GetScrape (endpoint_id : string).

Definition handle (W : World) (r : request) : M response :=
  match r with
  | PostAnalyze url query => analyze_webpage W url query
  | GetScrape endpoint_id => scrape_endpoint W endpoint_id
  end.

Fixpoint serve (W : World) (rs : list request) (st : state) : state :=
  match rs with
  | [] => st
  | r :: rs' => serve W rs' (snd (handle W r st))
  end.

(* ===================================================================== *)
(** ** A small world for examples *)
(* ===================================================================== *)

Module Demo.

(** <html><head><title>T</title></head>
    <body><main><h1>Hi</h1><ul><li>A</li><li>B</li></ul></main></body></html> *)
Definition page : node :=
  Tag "[document]" []
    [Tag "html" []
       [Tag "head" [] [Tag "title" [] [Text "T"]];
        Tag "body" []
          [Tag "main" []
             [Tag "h1" [] [Text "Hi"];
              Tag "ul" [] [Tag "li" [] [Text "A"]; Tag "li" [] [Text "B"]]]]]].

Definition h1_selector : json :=
  JObj [("type", JStr "css"); ("selector", JStr "h1");
        ("attribute", JStr "text"); ("description", JStr "heading")].

(** The answer the prompt asks for. *)
Definition payload : json :=
  JObj [("selectors", JArr [h1_selector]);
        ("preprocessing", JArr []);
        ("postprocessing", JArr [])].

(** The text of [payload]. *)
Definition payload_text : string :=
  "{" +:+ quoted "selectors" +:+ ": [{"
  +:+ quoted "type" +:+ ": " +:+ quoted "css" +:+ ", "
  +:+ quoted "selector" +:+ ": " +:+ quoted "h1" +:+ ", "
  +:+ quoted "attribute" +:+ ": " +:+ quoted "text" +:+ ", "
  +:+ quoted "description" +:+ ": " +:+ quoted "heading" +:+ "}], "
  +:+ quoted "preprocessing" +:+ ": [], "
  +:+ quoted "postprocessing" +:+ ": []}".

(** Every url serves [page]; a CSS selector is a tag name; a pattern
    matches the strings equal to it; the inference service answers with
    [payload_text], the one text that [json_loads] decodes. *)
Definition world : World :=
  {| requests_get := fun _ _ => Ok "<html>...</html>";
     parse_html := fun _ => page;
     css_select := fun soup s => Ok (Soup.find_all s soup);
     re_compile := fun pat => Ok (fun s => String.eqb s pat);
     chat_completion := fun _ _ => Ok payload_text;
     json_loads := fun s =>
       if String.eqb s payload_text then Ok payload
       else Err (ValueError "Expecting value");
     json_dumps := fun _ => "{}";
     py_hash := fun s => Z.of_nat (String.length s) |}.

(** The same world, where a url without a scheme is refused before any
    request is sent. *)
Definition strict : World :=
  {| requests_get := fun _ url =>
       if PyStr.contains_dslash url then Ok "<html>...</html>"
       else Err (ValueError "Invalid URL: No scheme supplied");
     parse_html := parse_html world;
     css_select := css_select world;
     re_compile := re_compile world;
     chat_completion := chat_completion world;
     json_loads := json_loads world;
     json_dumps := json_dumps world;
     py_hash := py_hash world |}.

End Demo.

(* ===================================================================== *)
(** ** Definitions used to state the properties *)
(* ===================================================================== *)

(** The characters of an identifier: letters, digits and the underscore. *)
Definition is_id_char (c : ascii) : bool :=
  (PyStr.is_alnum c || Ascii.eqb c "_")%bool.

(** The url with its scheme prefix removed: what follows the first ["//"]. *)
Fixpoint after_scheme (url : string) : option string :=
  match url with
  | EmptyString => None
  | String c s' =>
      match s' with
      | String c' rest =>
          if (PyStr.is_slash c && PyStr.is_slash c')%bool then Some rest else after_scheme s'
      | EmptyString => None
      end
  end.

(** The identifier in the words of the specification: the url without its
    scheme prefix, sanitised, followed by the fingerprint of the query. *)
Definition spec_endpoint_id (py_hash : string -> Z) (url query : string) : option string :=
  match after_scheme url with
  | Some rest =>
      Some ("scrape_" +:+ PyStr.sub_non_alnum rest +:+ "_"
            +:+ PyStr.of_int (py_hash query mod 10000))
  | None => None
  end.


(** The tags tried by [_identify_main_content] when no landmark is found. *)
Definition content_tags : list string := ["article"; "section"; "div"].

Definition text_len (x : node) : nat := String.length (Soup.get_text x).

(** No [main] element and no element whose [id] or [class] is [main]. *)
Definition no_main_landmark (soup : node) : Prop :=
  Soup.find "main" soup = None /\
  Soup.find_id "main" soup = None /\
  Soup.find_class "main" soup = None.

(** The fallback in the words of the specification: the first largest
    element among the [article], [section] and [div] elements taken
    together, and nothing when none of them has text. *)
Definition spec_main_content (soup : node) : option string :=
  match py_max text_len (Soup.find_all_in content_tags soup) with
  | Some m => if String.eqb (Soup.get_text m) "" then None else Some (Soup.get_text m)
  | None => None
  end.

Module Docs.

(** <article>a long article</article><div>x</div> *)
Definition article_and_div : node :=
  Tag "[document]" []
    [Tag "article" [] [Text "a long article"]; Tag "div" [] [Text "x"]].

(** <div></div> *)
Definition empty_div : node := Tag "[document]" [] [Tag "div" [] []].

(** <section>ab</section><p>t</p><section>cd</section> *)
Definition two_sections : node :=
  Tag "[document]" []
    [Tag "section" [] [Text "ab"]; Tag "p" [] [Text "t"]; Tag "section" [] [Text "cd"]].

(** <table><tr><th>h</th></tr><tr><td>1</td></tr><tr><td>2</td></tr></table>
    <table><tr><td>3</td></tr></table> *)
Definition two_tables : node :=
  Tag "[document]" []
    [Tag "table" []
       [Tag "tr" [] [Tag "th" [] [Text "h"]];
        Tag "tr" [] [Tag "td" [] [Text "1"]];
        Tag "tr" [] [Tag "td" [] [Text "2"]]];
     Tag "table" [] [Tag "tr" [] [Tag "td" [] [Text "3"]]]].

(** <p class="a b">x</p><p class="a">y</p><span class="c">z</span> *)
Definition classed : node :=
  Tag "[document]" []
    [Tag "p" [("class", AList ["a"; "b"])] [Text "x"];
     Tag "p" [("class", AList ["a"])] [Text "y"];
     Tag "span" [("class", AList ["c"])] [Text "z"]].

(** <p>hello <b>world</b></p> *)
Definition plain : node :=
  Tag "[document]" [] [Tag "p" [] [Text "hello "; Tag "b" [] [Text "world"]]].

End Docs.

(** Calls of [analyze_page_structure] on a list of urls, one after the
    other, whatever they return. *)
Definition analyze_all (W : World) (urls : list string) (st : state) : state :=
  fold_left (fun st u => snd (analyze_page_structure W u st)) urls st.

Definition lru_keys {V} (c : list (string * V)) : list string := List.map fst c.

(** The entry of [url] is in the cache with value [s], and the entries
    used more recently are distinct urls of [D]. *)
Definition cached_behind {V} (url : string) (s : V) (D : list string)
    (c : list (string * V)) : Prop :=
  exists pre post,
    c = (pre ++ (url, s) :: post)%list /\
    NoDup (lru_keys pre) /\
    (forall k, k ∈ lru_keys pre -> k ∈ D /\ k <> url).

(** An extracted value that [if value:] lets through. *)
Definition non_empty (v : attr_value) : Prop :=
  Py.truthy (Some v) = true /\ v <> AStr "" /\ v <> AList [].

(** A character other than the slash. *)
Definition not_slash (c : ascii) : bool := negb (PyStr.is_slash c).

(** The sum of the counts of the [elements] of a schema. *)
Definition sum_counts (els : list (string * ElementInfo)) : Z :=
  fold_right (fun kv acc => el_count (snd kv) + acc) 0 els.

(** An entry of [elements] with a count of at least 1 and a sample of at
    most 100 characters. *)
Definition good_info (kv : string * ElementInfo) : Prop :=
  1 <= el_count (snd kv) /\ (String.length (el_sample (snd kv)) <= 100)%nat.

(** The cache holds at most [maxsize] entries, under distinct urls. *)
Definition lru_ok {V} (c : list (string * V)) : Prop :=
  NoDup (lru_keys c) /\ (length c <= Lru.maxsize)%nat.

(** Every call of [analyze_page_structure] on the urls, one after the
    other, returns. *)
Fixpoint analyze_all_ok (W : World) (urls : list string) (st : state) : bool :=
  match urls with
  | [] => true
  | u :: urls' =>
      (is_Ok (fst (analyze_page_structure W u st))
       && analyze_all_ok W urls' (snd (analyze_page_structure W u st)))%bool
  end.

(** The element [_extract_navigation] reads the links from. *)
Definition nav_landmark (soup : node) : option node :=
  or_else (Soup.find "nav" soup)
    (or_else (Soup.find_class "navigation" soup) (Soup.find_id "navigation" soup)).

Module MoreDocs.

(** <div class="navigation"><a href="/a">A</a><a>B</a></div><nav></nav> *)
Definition nav_and_class : node :=
  Tag "[document]" []
    [Tag "div" [("class", AList ["navigation"])]
       [Tag "a" [("href", AStr "/a")] [Text "A"]; Tag "a" [] [Text "B"]];
     Tag "nav" [] []].

(** <p class="">x</p> *)
Definition empty_class : node :=
  Tag "[document]" [] [Tag "p" [("class", AList [])] [Text "x"]].

(** <ul><li>a</li><li>b<ol></ol></li></ul> *)
Definition nested_lists : node :=
  Tag "[document]" []
    [Tag "ul" []
       [Tag "li" [] [Text "a"];
        Tag "li" [] [Text "b"; Tag "ol" [] []]]].

(** <table><th>h</th></table> *)
Definition header_only_table : node :=
  Tag "[document]" [] [Tag "table" [] [Tag "th" [] [Text "h"]]].

(** <section>a long section</section><div>ab</div><div>cd</div> *)
Definition section_and_divs : node :=
  Tag "[document]" []
    [Tag "section" [] [Text "a long section"];
     Tag "div" [] [Text "ab"]; Tag "div" [] [Text "cd"]].

End MoreDocs.

(** The entries of the cache used more recently than the one of [url]. *)
Fixpoint before {V} (url : string) (c : list (string * V)) : list (string * V) :=
  match c with
  | [] => []
  | (k, v) :: c' => if String.eqb k url then [] else (k, v) :: before url c'
  end.

(** The entry of [url], if the cache has it, comes after the entries of
    all the urls of [seen]. *)
Definition behind_all {V} (url : string) (seen : list string) (c : list (string * V)) : Prop :=
  lru_ok c /\
  (url ∈ lru_keys c -> forall d, d ∈ seen -> d ∈ lru_keys (before url c)).

(** [n] urls, all different. *)
Definition numbered_urls (n : nat) : list string :=
  List.map (fun i => "http://h/" +:+ PyStr.of_int (Z.of_nat i)) (seq 0 n).

(** A text selector on the elements with the given tag name. *)
Definition text_selector (tag description : string) : json :=
  JObj [("type", JStr "css"); ("selector", JStr tag);
        ("attribute", JStr "text"); ("description", JStr description)].

(** A registry with one configuration. *)
Definition one_endpoint (id url : string) (selectors : json) : state :=
  set_cached_schemas
    {[ id := {| cfg_url := url; cfg_selectors := selectors; cfg_query := "q";
               cfg_method := "GET";
               cfg_parameters := {| format := "json"; cache_timeout := 3600 |} |} ]}
    init_state.

(** The structure of [Demo.page]. *)
Definition demo_structure : PageStructure :=
  {| title := Some "T";
     headings := ["Hi"];
     main_content := Some "HiAB";
     navigation := None;
     schema :=
       {| elements := [];
          lists := [{| li_type := "ul"; li_items_count := 2; li_sample := Some "A" |}];
          tables := [];
          forms := [] |} |}.


(** A selector that reads the [href] of what it matches: by text pattern,
    or by CSS. *)
Definition href_selector (type selector : string) : json :=
  JObj [("type", JStr type); ("selector", JStr selector);
        ("attribute", JStr "href"); ("description", JStr "link")].

(* ===================================================================== *)
(** ** The model on concrete inputs *)
(* ===================================================================== *)

Example split_dslash_url : PyStr.split_dslash "http://example.com/a" = ["http:"; "example.com/a"].
Proof. reflexivity. Qed.

Example split_dslash_triple : PyStr.split_dslash "a///b" = ["a"; "/b"].
Proof. reflexivity. Qed.

Example strip_spaces : PyStr.strip "  a b  " = "a b".
Proof. reflexivity. Qed.

Example endpoint_id_example :
  _generate_endpoint_id (py_hash Demo.world) "http://example.com/a-b?c=1" "get list items"
    = Ok "scrape_example_com_a_b_c_1_14".
Proof. reflexivity. Qed.

(** The page of the end-to-end scenario. *)
Example page_structure_demo :
  page_structure Demo.page =
    Ok {| title := Some "T";
          headings := ["Hi"];
          main_content := Some "HiAB";
          navigation := None;
          schema :=
            {| elements := [];
               lists := [{| li_type := "ul"; li_items_count := 2; li_sample := Some "A" |}];
               tables := [];
               forms := [] |} |}.
Proof. reflexivity. Qed.

Example schema_classed :
  option_map elements
    (match _generate_page_schema Docs.classed with Ok sch => Some sch | Err _ => None end)
  = Some [("a", {| el_count := 2; el_sample := "x" |});
          ("c", {| el_count := 1; el_sample := "z" |})].
Proof. reflexivity. Qed.

Example scrape_unknown_id :
  fst (scrape_endpoint Demo.world "nope" init_state)
    = Ok {| status := 404; payload := ErrorBody "Invalid endpoint ID" |}.
Proof. reflexivity. Qed.

(* ===================================================================== *)
(** ** Facts about strings *)
(* ===================================================================== *)

Section StringFacts.

Lemma append_cons (c : ascii) (s t : string) : String c s +:+ t = String c (s +:+ t).
Proof. reflexivity. Qed.

Lemma append_empty_r (s : string) : s +:+ "" = s.
Proof. induction s as [|c s IH]; [reflexivity | by rewrite append_cons, IH]. Qed.

Lemma append_snoc (cur : string) (c : ascii) (s : string) :
  (cur +:+ String c "") +:+ s = cur +:+ String c s.
Proof. induction cur as [|d cur IH]; [reflexivity | by rewrite !append_cons, IH]. Qed.

Lemma length_append (s t : string) :
  String.length (s +:+ t) = (String.length s + String.length t)%nat.
Proof.
  induction s as [|c s IH]; [reflexivity|].
  rewrite append_cons. cbn [String.length]. by rewrite IH.
Qed.

Lemma split_go_cons2 (cur : string) (c c' : ascii) (rest : string) :
  PyStr.split_go cur (String c (String c' rest)) =
    if (PyStr.is_slash c && PyStr.is_slash c')%bool
    then cur :: PyStr.split_go "" rest
    else PyStr.split_go (cur +:+ String c "") (String c' rest).
Proof. reflexivity. Qed.

Lemma contains_dslash_cons2 (c c' : ascii) (rest : string) :
  PyStr.contains_dslash (String c (String c' rest)) =
    ((PyStr.is_slash c && PyStr.is_slash c') || PyStr.contains_dslash (String c' rest))%bool.
Proof. reflexivity. Qed.

(** Without the separator, [split] returns the string as its only piece. *)
Lemma split_go_no_dslash (s : string) :
  forall cur, PyStr.contains_dslash s = false -> PyStr.split_go cur s = [cur +:+ s].
Proof.
  induction s as [|c s IH]; intros cur H.
  - cbn [PyStr.split_go]. by rewrite append_empty_r.
  - destruct s as [|c' rest].
    + reflexivity.
    + rewrite contains_dslash_cons2 in H. apply orb_false_iff in H as [Hc Hs].
      rewrite split_go_cons2, Hc, (IH _ Hs). by rewrite append_snoc.
Qed.

Lemma split_dslash_no_dslash (s : string) :
  PyStr.contains_dslash s = false -> PyStr.split_dslash s = [s].
Proof. intros H. unfold PyStr.split_dslash. by rewrite split_go_no_dslash. Qed.

Lemma map_chars_all (f : ascii -> ascii) (p : ascii -> bool) (s : string) :
  (forall c, p (f c) = true) -> PyStr.all_chars p (PyStr.map_chars f s) = true.
Proof. intros Hf. induction s as [|c s IH]; simpl; [reflexivity | by rewrite Hf, IH]. Qed.

(** After [re.sub] only letters, digits and underscores remain. *)
Lemma sub_non_alnum_chars (s : string) :
  PyStr.all_chars is_id_char (PyStr.sub_non_alnum s) = true.
Proof.
  apply map_chars_all. intros c. unfold is_id_char.
  destruct (PyStr.is_alnum c) eqn:E; [by rewrite E | reflexivity].
Qed.

Lemma string_of_uint_digits (d : Decimal.uint) :
  PyStr.all_chars PyStr.is_digit (NilEmpty.string_of_uint d) = true.
Proof. induction d; simpl; try reflexivity; assumption. Qed.

(** [str(n)] of a natural number is a non-empty run of digits. *)
Lemma of_int_digits (n : Z) :
  0 <= n ->
  PyStr.all_chars PyStr.is_digit (PyStr.of_int n) = true /\ PyStr.of_int n <> "".
Proof.
  intros Hn. unfold PyStr.of_int.
  destruct n as [|p|p]; [split; [reflexivity | discriminate] | | lia].
  cbn [Z.to_int NilZero.string_of_int NilZero.string_of_uint].
  pose proof (string_of_uint_digits (Pos.to_uint p)) as Hd.
  destruct (Pos.to_uint p) eqn:E; simpl in *; split; auto; discriminate.
Qed.

End StringFacts.

(* ===================================================================== *)
(** ** The endpoint identifier *)
(* ===================================================================== *)

Section EndpointIdFacts.

Variable py_hash : string -> Z.

Lemma after_scheme_cons2 (c c' : ascii) (rest : string) :
  after_scheme (String c (String c' rest)) =
    if (PyStr.is_slash c && PyStr.is_slash c')%bool
    then Some rest
    else after_scheme (String c' rest).
Proof. reflexivity. Qed.

Lemma split_go_after_scheme (url : string) :
  forall cur rest,
    after_scheme url = Some rest ->
    exists pre, PyStr.split_go cur url = pre :: PyStr.split_go "" rest.
Proof.
  induction url as [|c s IH]; intros cur rest H; [discriminate|].
  destruct s as [|c' s']; [discriminate|].
  rewrite after_scheme_cons2 in H. rewrite split_go_cons2.
  destruct (PyStr.is_slash c && PyStr.is_slash c')%bool.
  - injection H as <-. by exists cur.
  - by apply IH.
Qed.

Lemma after_scheme_none (url : string) :
  after_scheme url = None <-> PyStr.contains_dslash url = false.
Proof.
  induction url as [|c s IH]; [done|].
  destruct s as [|c' s']; [done|].
  rewrite after_scheme_cons2, contains_dslash_cons2.
  destruct (PyStr.is_slash c && PyStr.is_slash c')%bool; [split; discriminate | exact IH].
Qed.

(** A url without ["//"] has no identifier. *)
Lemma endpoint_id_no_dslash (url query : string) :
  PyStr.contains_dslash url = false ->
  _generate_endpoint_id py_hash url query = Err IndexError.
Proof.
  intros H. unfold _generate_endpoint_id. by rewrite split_dslash_no_dslash.
Qed.

(** The code takes the piece between the first and the second ["//"]. *)
Lemma endpoint_id_piece (url query rest : string) :
  after_scheme url = Some rest ->
  exists piece more,
    PyStr.split_dslash rest = piece :: more /\
    _generate_endpoint_id py_hash url query =
      Ok ("scrape_" +:+ PyStr.sub_non_alnum piece +:+ "_"
          +:+ PyStr.of_int (py_hash query mod 10000)).
Proof.
  intros H. unfold _generate_endpoint_id, PyStr.split_dslash.
  destruct (split_go_after_scheme url "" rest H) as [pre ->].
  destruct (PyStr.split_go "" rest) as [|piece more] eqn:E.
  - exfalso. clear -E. revert E. generalize "". induction rest as [|c s IH]; intros cur E; [discriminate|].
    destruct s as [|c' s']; [discriminate|].
    rewrite split_go_cons2 in E.
    destruct (PyStr.is_slash c && PyStr.is_slash c')%bool; [discriminate | by eapply IH].
  - by exists piece, more.
Qed.

(** When ["//"] occurs once only, the identifier is the one the
    specification describes, and it has the shape
    [scrape_<letters, digits, underscores>_<digits>] with a fingerprint
    below 10000. *)
Lemma endpoint_id_single_dslash (url query rest : string) :
  after_scheme url = Some rest ->
  PyStr.contains_dslash rest = false ->
  let base := PyStr.sub_non_alnum rest in
  let query_hash := py_hash query mod 10000 in
  _generate_endpoint_id py_hash url query = Ok ("scrape_" +:+ base +:+ "_" +:+ PyStr.of_int query_hash)
  /\ spec_endpoint_id py_hash url query = Some ("scrape_" +:+ base +:+ "_" +:+ PyStr.of_int query_hash)
  /\ PyStr.all_chars is_id_char base = true
  /\ 0 <= query_hash < 10000
  /\ PyStr.all_chars PyStr.is_digit (PyStr.of_int query_hash) = true
  /\ PyStr.of_int query_hash <> "".
Proof.
  intros H Hrest base query_hash.
  assert (0 <= query_hash < 10000) as Hb by (apply Z.mod_pos_bound; lia).
  destruct (endpoint_id_piece url query rest H) as (piece & more & Hs & Hid).
  rewrite (split_dslash_no_dslash rest Hrest) in Hs. injection Hs as <- <-.
  unfold spec_endpoint_id. rewrite H.
  destruct (of_int_digits query_hash) as [Hd Hne]; [lia|].
  split; [exact Hid|]. split; [reflexivity|].
  split; [apply sub_non_alnum_chars|]. auto.
Qed.

End EndpointIdFacts.

(** C4.  The identifier of a url is the sanitised remainder of the url
    after its scheme prefix, followed by the fingerprint of the query: on
    the url [http://a.com/x//y] the code returns [scrape_a_com_x_<n>],
    where the claimed identifier is [scrape_a_com_x__y_<n>]; the part of
    the url after the second ["//"] is lost. *)
Theorem endpoint_id_second_dslash (py_hash : string -> Z) (query : string) :
  let n := PyStr.of_int (py_hash query mod 10000) in
  _generate_endpoint_id py_hash "http://a.com/x//y" query = Ok ("scrape_a_com_x_" +:+ n)
  /\ spec_endpoint_id py_hash "http://a.com/x//y" query = Some ("scrape_a_com_x__y_" +:+ n)
  /\ "scrape_a_com_x_" +:+ n <> "scrape_a_com_x__y_" +:+ n.
Proof.
  intros n. repeat split.
  intros H. apply (f_equal String.length) in H. rewrite !length_append in H.
  simpl in H. lia.
Qed.

(* ===================================================================== *)
(** ** Structure analysis: the schema *)
(* ===================================================================== *)

Section SchemaFacts.

Lemma filter_nil_none {A} (p : A -> bool) (l : list A) :
  (forall x, In x l -> p x = false) -> List.filter p l = [].
Proof.
  induction l as [|x l IH]; intros H; [reflexivity|].
  cbn [List.filter]. rewrite (H x) by (left; reflexivity).
  apply IH. intros y Hy. apply H. by right.
Qed.

Lemma filter_nil_inv {A} (p : A -> bool) (l : list A) :
  List.filter p l = [] -> forall x, In x l -> p x = false.
Proof.
  induction l as [|y l IH]; intros H x Hx; [destruct Hx|].
  cbn [List.filter] in H. destruct (p y) eqn:E; [discriminate|].
  destruct Hx as [<-|Hx]; [exact E | by apply IH].
Qed.

Lemma find_all_by_none (p : node -> bool) (soup : node) :
  (forall d, In d (Soup.descendants soup) -> p d = false) ->
  Soup.find_all_by p soup = [].
Proof.
  intros H. apply filter_nil_none. intros d Hd. rewrite (H d Hd).
  apply andb_false_r.
Qed.

Lemma has_name_name (nm : string) (d : node) :
  Soup.has_name nm d = true <-> Soup.name d = Some nm.
Proof.
  destruct d as [s|nm' attrs cs]; cbn; [split; discriminate|].
  rewrite String.eqb_eq. split; [by intros -> | by intros [= ->]].
Qed.

Lemma has_name_false (nm : string) (d : node) :
  Soup.name d <> Some nm -> Soup.has_name nm d = false.
Proof.
  intros H. destruct (Soup.has_name nm d) eqn:E; [|reflexivity].
  by apply has_name_name in E.
Qed.

(** The tables of the schema follow the tables of the document. *)
Lemma schema_tables (soup : node) (sch : PageSchema) :
  _generate_page_schema soup = Ok sch ->
  tables sch = List.map schema_table (Soup.find_all "table" soup).
Proof.
  unfold _generate_page_schema.
  destruct (schema_elements _ _); cbn; [by intros [= <-] | discriminate].
Qed.

(** The first loop succeeds when every classed element has a first
    class token. *)
Lemma schema_elements_ok (l : list node) :
  forall els,
    (forall d, In d l -> is_Ok (first_class d) = true) ->
    is_Ok (schema_elements els l) = true.
Proof.
  induction l as [|d l IH]; intros els H; [reflexivity|].
  cbn [schema_elements]. unfold schema_element_step.
  specialize (H d (or_introl eq_refl)) as Hd.
  destruct (first_class d) as [c|]; [|discriminate]. cbn [rbind].
  destruct (assoc c els); cbn [rbind]; apply IH; intros; apply H; by right.
Qed.

Lemma generate_page_schema_ok (soup : node) :
  (forall d, In d (Soup.find_all_classed soup) -> is_Ok (first_class d) = true) ->
  is_Ok (_generate_page_schema soup) = true.
Proof.
  intros H. unfold _generate_page_schema.
  pose proof (schema_elements_ok _ [] H) as Hok.
  by destruct (schema_elements _ _).
Qed.

End SchemaFacts.

(** C9.  A parsed document with no element carrying a [class] attribute,
    no [ul] or [ol] element and no [table] element has a schema whose
    [elements], [lists] and [tables] are all empty. *)
Theorem schema_empty_without_classes_lists_tables (soup : node) :
  (forall d, In d (Soup.descendants soup) -> Soup.get d "class" = None) ->
  (forall d, In d (Soup.descendants soup) ->
     Soup.name d <> Some "ul" /\ Soup.name d <> Some "ol" /\ Soup.name d <> Some "table") ->
  exists sch,
    _generate_page_schema soup = Ok sch /\
    elements sch = [] /\ lists sch = [] /\ tables sch = [].
Proof.
  intros Hclass Hname. unfold _generate_page_schema.
  assert (Soup.find_all_classed soup = []) as ->.
  { apply find_all_by_none. intros d Hd. unfold Soup.has_class_attr.
    by rewrite (Hclass d Hd). }
  assert (Soup.find_all_in ["ul"; "ol"] soup = []) as ->.
  { apply find_all_by_none. intros d Hd. destruct (Hname d Hd) as (Hul & Hol & _).
    unfold Soup.has_name_in. cbn [existsb].
    by rewrite (has_name_false _ _ Hul), (has_name_false _ _ Hol). }
  assert (Soup.find_all "table" soup = []) as ->.
  { apply find_all_by_none. intros d Hd. destruct (Hname d Hd) as (_ & _ & Ht).
    by apply has_name_false. }
  eexists. cbn. repeat split.
Qed.

Lemma schema_empty_without_classes_lists_tables_witness :
  (forall d, In d (Soup.descendants Docs.plain) -> Soup.get d "class" = None) /\
  (forall d, In d (Soup.descendants Docs.plain) ->
     Soup.name d <> Some "ul" /\ Soup.name d <> Some "ol" /\ Soup.name d <> Some "table") /\
  exists sch,
    _generate_page_schema Docs.plain = Ok sch /\
    elements sch = [] /\ lists sch = [] /\ tables sch = [].
Proof.
  assert (forall d, In d (Soup.descendants Docs.plain) -> Soup.get d "class" = None) as H1.
  { intros d Hd. cbn in Hd. intuition (subst; reflexivity). }
  assert (forall d, In d (Soup.descendants Docs.plain) ->
            Soup.name d <> Some "ul" /\ Soup.name d <> Some "ol" /\ Soup.name d <> Some "table")
    as H2.
  { intros d Hd. cbn in Hd. intuition (subst; discriminate). }
  split; [exact H1|]. split; [exact H2|].
  exact (schema_empty_without_classes_lists_tables Docs.plain H1 H2).
Defined.

(** C6.  In the schema of a parsed document the entries of [tables] follow
    the [table] elements of the document in order, and for each of them:
    when the table has header cells ([th]), [rows_count] is its number of
    rows ([tr]) minus one; when it has none, [rows_count] is its number of
    rows. *)
Theorem table_rows_count (soup : node) (sch : PageSchema) :
  _generate_page_schema soup = Ok sch ->
  Forall2
    (fun table entry =>
       let total := Z.of_nat (length (Soup.find_all "tr" table)) in
       (Soup.find_all "th" table <> [] -> tb_rows_count entry = total - 1) /\
       (Soup.find_all "th" table = [] -> tb_rows_count entry = total))
    (Soup.find_all "table" soup) (tables sch).
Proof.
  intros H. rewrite (schema_tables soup sch H).
  induction (Soup.find_all "table" soup) as [|table l IH]; cbn [List.map]; constructor; [|exact IH].
  unfold schema_table. cbn [tb_rows_count].
  destruct (Soup.find_all "th" table) as [|th ths]; cbn [List.map]; split; intros E;
    congruence.
Qed.

Lemma table_rows_count_witness :
  exists sch,
    _generate_page_schema Docs.two_tables = Ok sch /\
    List.map tb_rows_count (tables sch) = [2; 1] /\
    Forall2
      (fun table entry =>
         let total := Z.of_nat (length (Soup.find_all "tr" table)) in
         (Soup.find_all "th" table <> [] -> tb_rows_count entry = total - 1) /\
         (Soup.find_all "th" table = [] -> tb_rows_count entry = total))
      (Soup.find_all "table" Docs.two_tables) (tables sch).
Proof.
  eexists. split; [reflexivity|]. split; [reflexivity|].
  apply (table_rows_count Docs.two_tables). reflexivity.
Defined.

(* ===================================================================== *)
(** ** Structure analysis: the main content *)
(* ===================================================================== *)

Section MainContentFacts.

(** [max] returns the first element whose key is maximal. *)
Lemma max_from_first {A} (key : A -> nat) (l : list A) :
  forall best m,
    max_from key best l = m ->
    (m = best /\ forall x, In x l -> (key x <= key best)%nat) \/
    (exists pre post,
        l = (pre ++ m :: post)%list /\ (key best < key m)%nat /\
        (forall x, In x pre -> (key x < key m)%nat) /\
        (forall x, In x post -> (key x <= key m)%nat)).
Proof.
  induction l as [|x l IH]; intros best m H.
  - left. cbn in H. split; [done | intros ? []].
  - cbn [max_from] in H. destruct (Nat.ltb_spec (key best) (key x)) as [Hlt|Hge].
    + right. destruct (IH _ _ H) as [[-> Hall] | (pre & post & -> & Hm & Hpre & Hpost)].
      * exists [], l. repeat split; [exact Hlt | intros ? [] | exact Hall].
      * exists (x :: pre), post. repeat split; [lia | | exact Hpost].
        intros y [<-|Hy]; [exact Hm | by apply Hpre].
    + destruct (IH _ _ H) as [[-> Hall] | (pre & post & -> & Hm & Hpre & Hpost)].
      * left. split; [reflexivity|]. intros y [<-|Hy]; [exact Hge | by apply Hall].
      * right. exists (x :: pre), post. repeat split; [exact Hm | | exact Hpost].
        intros y [<-|Hy]; [lia | by apply Hpre].
Qed.

Lemma py_max_first {A} (key : A -> nat) (l : list A) (m : A) :
  py_max key l = Some m ->
  exists pre post,
    l = (pre ++ m :: post)%list /\
    (forall x, In x pre -> (key x < key m)%nat) /\
    (forall x, In x post -> (key x <= key m)%nat).
Proof.
  destruct l as [|x l]; [discriminate|]. cbn [py_max]. intros [= H].
  destruct (max_from_first key l x m H) as [[-> Hall] | (pre & post & -> & Hm & Hpre & Hpost)].
  - exists [], l. repeat split; [intros ? [] | exact Hall].
  - exists (x :: pre), post. repeat split; [|exact Hpost].
    intros y [<-|Hy]; [exact Hm | by apply Hpre].
Qed.

Lemma find_all_none_name (t : string) (soup d : node) :
  Soup.find_all t soup = [] -> In d (Soup.descendants soup) ->
  (Soup.is_tag d && Soup.has_name t d)%bool = false.
Proof. intros H Hd. exact (filter_nil_inv _ _ H d Hd). Qed.

(** When only one of the three tags occurs, its elements are all the
    candidates. *)
Lemma find_all_in_single (soup : node) (tag : string) :
  In tag content_tags ->
  (forall t, In t content_tags -> t <> tag -> Soup.find_all t soup = []) ->
  Soup.find_all_in content_tags soup = Soup.find_all tag soup.
Proof.
  intros Htag Hothers. unfold Soup.find_all_in, Soup.find_all, Soup.find_all_by.
  apply filter_ext_in. intros d Hd.
  unfold Soup.has_name_in, content_tags. cbn [existsb].
  rewrite orb_false_r, !andb_orb_distrib_r.
  cbn in Htag. destruct Htag as [<-|[<-|[<-|[]]]].
  - rewrite (find_all_none_name "section" soup d), (find_all_none_name "div" soup d);
      [by rewrite !orb_false_r | | assumption | | assumption];
      apply Hothers; cbn; auto; discriminate.
  - rewrite (find_all_none_name "article" soup d), (find_all_none_name "div" soup d);
      [by rewrite !orb_false_r | | assumption | | assumption];
      apply Hothers; cbn; auto; discriminate.
  - rewrite (find_all_none_name "article" soup d), (find_all_none_name "section" soup d);
      [reflexivity | | assumption | | assumption];
      apply Hothers; cbn; auto; discriminate.
Qed.

Lemma main_content_step_none (soup : node) (mc : option node) (t : string) :
  Soup.find_all t soup = [] -> main_content_step soup mc t = mc.
Proof. intros H. unfold main_content_step. by rewrite H. Qed.

Lemma main_content_step_some (soup : node) (mc : option node) (t : string) :
  Soup.find_all t soup <> [] ->
  main_content_step soup mc t = py_max text_len (Soup.find_all t soup).
Proof. intros H. unfold main_content_step. by destruct (Soup.find_all t soup). Qed.

(** What the code returns without a landmark: the largest element of the
    last of [article], [section], [div] that occurs in the document. *)
Lemma identify_main_content_last_tag (soup : node) :
  no_main_landmark soup ->
  _identify_main_content soup =
    option_map Soup.get_text
      (fold_left (main_content_step soup) content_tags None).
Proof.
  intros (H1 & H2 & H3). unfold _identify_main_content.
  rewrite H1, H2, H3. cbn [or_else].
  fold content_tags. by destruct (fold_left _ _ _).
Qed.

Lemma identify_main_content_single (soup : node) (tag : string) :
  no_main_landmark soup ->
  In tag content_tags ->
  (forall t, In t content_tags -> t <> tag -> Soup.find_all t soup = []) ->
  _identify_main_content soup =
    option_map Soup.get_text (py_max text_len (Soup.find_all_in content_tags soup)).
Proof.
  intros Hno Htag Hothers.
  rewrite (identify_main_content_last_tag soup Hno), (find_all_in_single soup tag Htag Hothers).
  f_equal. unfold content_tags. cbn [fold_left].
  destruct (list_eq_nil_dec (Soup.find_all tag soup)) as [E|E].
  - rewrite E. cbn [py_max].
    assert (forall t, In t content_tags -> Soup.find_all t soup = []) as Hall.
    { intros t Ht. destruct (string_dec t tag) as [->|Hne]; [exact E | by apply Hothers]. }
    rewrite !main_content_step_none; [reflexivity | | |]; apply Hall; cbn; auto.
  - cbn in Htag. destruct Htag as [<-|[<-|[<-|[]]]].
    + rewrite (main_content_step_some _ _ "article" E).
      rewrite !main_content_step_none; [reflexivity | |]; apply Hothers; cbn; auto; discriminate.
    + rewrite (main_content_step_none _ _ "article"), (main_content_step_some _ _ "section" E).
      * rewrite main_content_step_none; [reflexivity|]. apply Hothers; cbn; auto; discriminate.
      * apply Hothers; cbn; auto; discriminate.
    + rewrite (main_content_step_none _ _ "article"), (main_content_step_none _ _ "section").
      * by rewrite (main_content_step_some _ _ "div" E).
      * apply Hothers; cbn; auto; discriminate.
      * apply Hothers; cbn; auto; discriminate.
Qed.

End MainContentFacts.

(** C5 as stated fails.  On [<article>a long article</article><div>x</div>]
    the code returns the text of the [div], not of the larger [article];
    on [<div></div>] it returns the empty text, not nothing. *)
Lemma main_content_not_largest_overall :
  (no_main_landmark Docs.article_and_div /\
   _identify_main_content Docs.article_and_div = Some "x" /\
   spec_main_content Docs.article_and_div = Some "a long article" /\
   _identify_main_content Docs.article_and_div <> spec_main_content Docs.article_and_div) /\
  (no_main_landmark Docs.empty_div /\
   _identify_main_content Docs.empty_div = Some "" /\
   spec_main_content Docs.empty_div = None /\
   _identify_main_content Docs.empty_div <> spec_main_content Docs.empty_div).
Proof. repeat split; discriminate. Qed.

(** C5, amended.  For a parsed document with no main landmark in which the
    [article], [section] and [div] elements are all of one tag: when there
    is no such element the main content is absent; otherwise it is the
    text (possibly empty) of the first element of largest text length in
    document order: every candidate before it is strictly shorter and none
    after it is longer. *)
Theorem main_content_fallback (soup : node) (tag : string) :
  no_main_landmark soup ->
  In tag content_tags ->
  (forall t, In t content_tags -> t <> tag -> Soup.find_all t soup = []) ->
  let candidates := Soup.find_all_in content_tags soup in
  (candidates = [] /\ _identify_main_content soup = None) \/
  (exists pre m post,
      candidates = (pre ++ m :: post)%list /\
      (forall x, In x pre -> (text_len x < text_len m)%nat) /\
      (forall x, In x post -> (text_len x <= text_len m)%nat) /\
      _identify_main_content soup = Some (Soup.get_text m)).
Proof.
  intros Hno Htag Hothers candidates.
  rewrite (identify_main_content_single soup tag Hno Htag Hothers).
  fold candidates. destruct (py_max text_len candidates) as [m|] eqn:E.
  - right. destruct (py_max_first _ _ _ E) as (pre & post & Hc & Hpre & Hpost).
    by exists pre, m, post.
  - left. split; [|reflexivity]. by destruct candidates.
Qed.

Lemma main_content_fallback_witness :
  no_main_landmark Docs.two_sections /\
  In "section" content_tags /\
  (forall t, In t content_tags -> t <> "section" -> Soup.find_all t Docs.two_sections = []) /\
  _identify_main_content Docs.two_sections = Some "ab" /\
  let candidates := Soup.find_all_in content_tags Docs.two_sections in
  (candidates = [] /\ _identify_main_content Docs.two_sections = None) \/
  (exists pre m post,
      candidates = (pre ++ m :: post)%list /\
      (forall x, In x pre -> (text_len x < text_len m)%nat) /\
      (forall x, In x post -> (text_len x <= text_len m)%nat) /\
      _identify_main_content Docs.two_sections = Some (Soup.get_text m)).
Proof.
  assert (no_main_landmark Docs.two_sections) as H1 by (repeat split).
  assert (In "section" content_tags) as H2 by (cbn; auto).
  assert (forall t, In t content_tags -> t <> "section" ->
                    Soup.find_all t Docs.two_sections = []) as H3.
  { intros t Ht Hne. cbn in Ht. destruct Ht as [<-|[<-|[<-|[]]]];
      [reflexivity | by destruct Hne | reflexivity]. }
  split; [exact H1|]. split; [exact H2|]. split; [exact H3|]. split; [reflexivity|].
  exact (main_content_fallback Docs.two_sections "section" H1 H2 H3).
Defined.

(* ===================================================================== *)
(** ** The registry *)
(* ===================================================================== *)

Section RegistryFacts.

Context (W : World).

Lemma endpoint_id_defined (url query : string) :
  PyStr.contains_dslash url = true ->
  exists id, _generate_endpoint_id (py_hash W) url query = Ok id.
Proof.
  intros H. destruct (after_scheme url) as [rest|] eqn:E.
  - destruct (endpoint_id_piece (py_hash W) url query rest E) as (piece & more & _ & Hid).
    eauto.
  - apply after_scheme_none in E. congruence.
Qed.

Lemma fetch_cached_schemas (url : string) (st : state) :
  cached_schemas (snd (fetch W url st)) = cached_schemas st.
Proof. reflexivity. Qed.

Lemma analyze_cached_schemas (url : string) (st : state) :
  cached_schemas (snd (analyze_page_structure W url st)) = cached_schemas st.
Proof.
  unfold analyze_page_structure. destruct (Lru.lookup url (lru st)); [reflexivity|].
  unfold analyze_uncached, bind, lift. cbn.
  destruct (requests_get W _ url); [|reflexivity].
  by destruct (page_structure _).
Qed.

Lemma execute_cached_schemas (endpoint_id : string) (st : state) :
  cached_schemas (snd (execute_scraping W endpoint_id st)) = cached_schemas st.
Proof.
  unfold execute_scraping, bind, resolve, lift.
  destruct (cached_schemas st !! endpoint_id); [|reflexivity]. cbn.
  by destruct (requests_get W _ _).
Qed.

(** [register] stores the configuration exactly when the identifier is
    defined. *)
Lemma register_cases (url query : string) (selectors : json) (st : state) :
  let cfg := {| cfg_url := url; cfg_selectors := selectors; cfg_query := query;
                cfg_method := "GET";
                cfg_parameters := {| format := "json"; cache_timeout := 3600 |} |} in
  match _generate_endpoint_id (py_hash W) url query with
  | Ok id =>
      register W url query selectors st =
        (Ok (id, cfg), set_cached_schemas (<[id := cfg]> (cached_schemas st)) st)
  | Err e => register W url query selectors st = (Err e, st)
  end.
Proof.
  unfold register, bind, lift. by destruct (_generate_endpoint_id _ _ _).
Qed.

(** [generate_api_endpoint], step by step. *)
Lemma generate_unfold (url query : string) (st : state) :
  generate_api_endpoint W url query st =
    match analyze_page_structure W url st with
    | (Ok structure, st1) =>
        match chat_completion W (completions st1)
                (_create_selector_prompt W structure query) with
        | Ok content =>
            match json_loads W content with
            | Ok selectors => register W url query selectors (count_completion st1)
            | Err e => (Err e, count_completion st1)
            end
        | Err e => (Err e, count_completion st1)
        end
    | (Err e, st1) => (Err e, st1)
    end.
Proof.
  unfold generate_api_endpoint, bind at 1.
  destruct (analyze_page_structure W url st) as [[structure|e] st1]; [|reflexivity].
  unfold bind at 1, complete.
  destruct (chat_completion W _ _) as [content|e]; [|reflexivity].
  unfold bind at 1, lift. by destruct (json_loads W content).
Qed.

(** The two outcomes of [generate_api_endpoint]: it raises and the
    registry is as before, or it returns the identifier of (url, query)
    and a configuration holding the url, the query and the whole decoded
    answer, stored under that identifier. *)
Lemma generate_cases (url query : string) (st : state) :
  let r := generate_api_endpoint W url query st in
  (exists e, fst r = Err e /\ cached_schemas (snd r) = cached_schemas st) \/
  (exists id cfg content,
      fst r = Ok (id, cfg) /\
      _generate_endpoint_id (py_hash W) url query = Ok id /\
      json_loads W content = Ok (cfg_selectors cfg) /\
      cfg_url cfg = url /\ cfg_query cfg = query /\
      cached_schemas (snd r) = <[id := cfg]> (cached_schemas st)).
Proof.
  cbn zeta. rewrite generate_unfold.
  pose proof (analyze_cached_schemas url st) as Ha.
  destruct (analyze_page_structure W url st) as [[structure|e] st1]; cbn [snd] in Ha;
    [|left; eauto].
  destruct (chat_completion W _ _) as [content|e]; [|left; eauto].
  destruct (json_loads W content) as [selectors|e] eqn:Hj; [|left; eauto].
  pose proof (register_cases url query selectors (count_completion st1)) as Hr.
  cbn zeta in Hr. destruct (_generate_endpoint_id _ url query) as [id|e] eqn:Hid; rewrite Hr.
  - right. eexists id, _, content. cbn. rewrite Ha. by repeat split.
  - left. eauto.
Qed.

Lemma generate_error_no_dslash (url query : string) (st : state) :
  PyStr.contains_dslash url = false ->
  exists e,
    fst (generate_api_endpoint W url query st) = Err e /\
    cached_schemas (snd (generate_api_endpoint W url query st)) = cached_schemas st.
Proof.
  intros H. destruct (generate_cases url query st) as [?|(id & cfg & c & _ & Hid & _)];
    [assumption|].
  rewrite (endpoint_id_no_dslash _ _ _ H) in Hid. discriminate.
Qed.

(** [POST /api/analyze] with both fields present, step by step. *)
Lemma analyze_webpage_unfold (url query : string) (st : state) :
  analyze_webpage W (Some url) (Some query) st =
    if (String.eqb url "" || String.eqb query "")%bool
    then (Ok {| status := 400; payload := ErrorBody "Missing url or query" |}, st)
    else
      match generate_api_endpoint W url query st with
      | (Ok created, st1) =>
          match execute_scraping W (fst created) st1 with
          | (Ok results, st2) =>
              (Ok {| status := 200;
                     payload := AnalyzeBody ("/api/scrape/" +:+ fst created)
                                  (snd created) results |}, st2)
          | (Err e, st2) => (Err e, st2)
          end
      | (Err e, st1) => (Err e, st1)
      end.
Proof.
  unfold analyze_webpage, falsy_field.
  destruct (String.eqb url "" || String.eqb query "")%bool; [reflexivity|].
  cbn [from_option id]. unfold bind at 1.
  destruct (generate_api_endpoint W url query st) as [[created|e] st1]; [|reflexivity].
  unfold bind, ret. by destruct (execute_scraping W _ st1) as [[results|e] st2].
Qed.

Lemma handle_cached_schemas (r : request) (st : state) :
  cached_schemas (snd (handle W r st)) = cached_schemas st \/
  exists url query id cfg,
    r = PostAnalyze (Some url) (Some query) /\
    _generate_endpoint_id (py_hash W) url query = Ok id /\
    cached_schemas (snd (handle W r st)) = <[id := cfg]> (cached_schemas st).
Proof.
  destruct r as [url query|endpoint_id]; cbn [handle].
  - destruct url as [url|]; [|by left]. destruct query as [query|].
    2:{ left. unfold analyze_webpage. by rewrite orb_true_r. }
    rewrite analyze_webpage_unfold.
    destruct (String.eqb url "" || String.eqb query "")%bool; [by left|].
    destruct (generate_cases url query st)
      as [(e & He & Hs)|(id & cfg & c & He & Hid & _ & _ & _ & Hs)];
      destruct (generate_api_endpoint W url query st) as [res st1];
      cbn [fst snd] in *; subst res; [by left|].
    right. exists url, query, id, cfg. split; [reflexivity|]. split; [exact Hid|].
    cbn [fst]. pose proof (execute_cached_schemas id st1) as He.
    destruct (execute_scraping W id st1) as [[results|e] st2]; cbn [snd] in *; congruence.
  - left. unfold scrape_endpoint.
    pose proof (execute_cached_schemas endpoint_id st) as He.
    destruct (execute_scraping W endpoint_id st) as [[results|[]] st2]; exact He.
Qed.

(** Every identifier in the registry was derived from the url and the
    query of some earlier [POST /api/analyze]. *)
Lemma serve_registered (rs : list request) :
  forall st id,
    cached_schemas (serve W rs st) !! id <> None ->
    cached_schemas st !! id <> None \/
    exists url query,
      In (PostAnalyze (Some url) (Some query)) rs /\
      _generate_endpoint_id (py_hash W) url query = Ok id.
Proof.
  induction rs as [|r rs IH]; intros st id H; [by left|].
  cbn [serve] in H. destruct (IH _ _ H) as [Hin|(url & query & Hin & Hid)].
  - destruct (handle_cached_schemas r st) as [E|(url & query & id' & cfg & -> & Hid & E)].
    + left. by rewrite <- E.
    + rewrite E in Hin. destruct (decide (id' = id)) as [->|Hne].
      * right. exists url, query. split; [by left | exact Hid].
      * left. by rewrite lookup_insert_ne in Hin.
  - right. exists url, query. split; [by right | exact Hid].
Qed.

End RegistryFacts.

(** C2.  Registering and then resolving.  For every url, query and
    selector value [s], the registration at the end of
    [generate_api_endpoint] either stores a configuration under the
    identifier derived from (url, query), and resolving that identifier
    right after yields this configuration, whose [url], [query] and
    [selectors] are the inputs; or the url has no ["//"] and it raises
    [IndexError], leaving the state as it was.  Likewise, when
    [generate_api_endpoint] returns an identifier, resolving it yields the
    returned configuration, which holds the url, the query and the decoded
    answer. *)
Theorem register_then_resolve (W : World) (url query : string) (s : json) (st : state) :
  match register W url query s st with
  | (Ok (id, cfg), st') =>
      _generate_endpoint_id (py_hash W) url query = Ok id /\
      resolve id st' = (Ok cfg, st') /\
      cfg_url cfg = url /\ cfg_query cfg = query /\ cfg_selectors cfg = s
  | (Err e, st') => PyStr.contains_dslash url = false /\ e = IndexError /\ st' = st
  end /\
  match generate_api_endpoint W url query st with
  | (Ok (id, cfg), st') =>
      resolve id st' = (Ok cfg, st') /\
      cfg_url cfg = url /\ cfg_query cfg = query /\
      exists content, json_loads W content = Ok (cfg_selectors cfg)
  | (Err _, st') => cached_schemas st' = cached_schemas st
  end.
Proof.
  split.
  - pose proof (register_cases W url query s st) as Hr. cbn zeta in Hr.
    destruct (_generate_endpoint_id (py_hash W) url query) as [id|e] eqn:Hid; rewrite Hr.
    + split; [reflexivity|]. split; [|by repeat split].
      unfold resolve, set_cached_schemas. cbn [cached_schemas]. by rewrite lookup_insert_eq.
    + destruct (PyStr.contains_dslash url) eqn:Hc.
      * destruct (endpoint_id_defined W url query Hc) as [id Hid']. congruence.
      * rewrite (endpoint_id_no_dslash _ _ _ Hc) in Hid. by injection Hid as <-.
  - destruct (generate_cases W url query st)
      as [(e & He & Hs)|(id & cfg & content & He & _ & Hj & Hu & Hq & Hs)];
      destruct (generate_api_endpoint W url query st) as [res st']; cbn [fst snd] in *;
      subst res; [exact Hs|].
    split; [|by eauto]. unfold resolve. by rewrite Hs, lookup_insert_eq.
Qed.

(** C3.  For an identifier that is not in the registry, whatever happened
    before (no request at all, requests for other identifiers, a
    [POST /api/analyze] that stopped before it stored anything):
    [execute_scraping] raises [ValueError("Invalid endpoint ID")] and
    leaves the state as it was, so that no page is fetched, and
    [GET /api/scrape/<id>] answers 404 with that message. *)
Theorem unregistered_not_found (W : World) (st : state) (id : string) :
  cached_schemas st !! id = None ->
  execute_scraping W id st = (Err (ValueError "Invalid endpoint ID"), st) /\
  fetches (snd (execute_scraping W id st)) = fetches st /\
  scrape_endpoint W id st =
    (Ok {| status := 404; payload := ErrorBody "Invalid endpoint ID" |}, st).
Proof.
  intros Hnone.
  assert (execute_scraping W id st = (Err (ValueError "Invalid endpoint ID"), st)) as Hex.
  { unfold execute_scraping, bind, resolve. by rewrite Hnone. }
  split; [exact Hex|]. split; [by rewrite Hex|].
  unfold scrape_endpoint. by rewrite Hex.
Qed.

Lemma unregistered_not_found_witness :
  let rs := [PostAnalyze (Some "http://a.com") (Some "q");
             PostAnalyze (Some "http://b.com") (Some "")] in
  let st := serve Demo.world rs init_state in
  _generate_endpoint_id (py_hash Demo.world) "http://b.com" "" = Ok "scrape_b_com_0" /\
  cached_schemas st !! "scrape_a_com_1" <> None /\
  cached_schemas st !! "scrape_b_com_0" = None /\
  execute_scraping Demo.world "scrape_b_com_0" st = (Err (ValueError "Invalid endpoint ID"), st) /\
  fetches (snd (execute_scraping Demo.world "scrape_b_com_0" st)) = fetches st /\
  scrape_endpoint Demo.world "scrape_b_com_0" st =
    (Ok {| status := 404; payload := ErrorBody "Invalid endpoint ID" |}, st).
Proof.
  intros rs st. split; [reflexivity|]. split; [discriminate|].
  assert (cached_schemas st !! "scrape_b_com_0" = None) as H by reflexivity.
  split; [exact H|].
  exact (unregistered_not_found Demo.world st "scrape_b_com_0" H).
Defined.

(* ===================================================================== *)
(** ** The cache of [analyze_page_structure] *)
(* ===================================================================== *)

Section LruFacts.

Context {V : Type}.
Implicit Types (c pre post : list (string * V)) (k url : string).

Lemma eqb_refl_true k : String.eqb k k = true.
Proof. apply String.eqb_refl. Qed.

Lemma lookup_cons_eq k (v : V) c : Lru.lookup k ((k, v) :: c) = Some v.
Proof. unfold Lru.lookup. cbn. by rewrite eqb_refl_true. Qed.

Lemma lookup_cons_ne k k' (v : V) c :
  k' <> k -> Lru.lookup k ((k', v) :: c) = Lru.lookup k c.
Proof.
  intros H. unfold Lru.lookup. cbn.
  destruct (String.eqb_spec k' k); [contradiction | reflexivity].
Qed.

Lemma lookup_none_keys k c : Lru.lookup k c = None -> k ∉ lru_keys c.
Proof.
  induction c as [|[k' v] c IH]; intros H; [apply not_elem_of_nil|].
  unfold Lru.lookup in H. cbn in H. destruct (String.eqb_spec k' k) as [->|Hne]; [discriminate|].
  cbn. apply not_elem_of_cons. split; [congruence | by apply IH].
Qed.

Lemma lookup_app_behind k (v : V) pre post :
  k ∉ lru_keys pre -> Lru.lookup k (pre ++ (k, v) :: post) = Some v.
Proof.
  induction pre as [|[k' v'] pre IH]; intros H; [apply lookup_cons_eq|].
  cbn in H. apply not_elem_of_cons in H as [Hne Hpre].
  cbn [app]. rewrite lookup_cons_ne by congruence. by apply IH.
Qed.

Lemma remove_cons_eq k (v : V) c : Lru.remove k ((k, v) :: c) = Lru.remove k c.
Proof. unfold Lru.remove. cbn. by rewrite eqb_refl_true. Qed.

Lemma remove_cons_ne k k' (v : V) c :
  k' <> k -> Lru.remove k ((k', v) :: c) = (k', v) :: Lru.remove k c.
Proof.
  intros H. unfold Lru.remove. cbn.
  destruct (String.eqb_spec k' k); [contradiction | reflexivity].
Qed.

Lemma remove_app k c1 c2 : Lru.remove k (c1 ++ c2) = (Lru.remove k c1 ++ Lru.remove k c2)%list.
Proof. apply List.filter_app. Qed.

Lemma keys_remove k k' c : k' ∈ lru_keys (Lru.remove k c) -> k' ∈ lru_keys c /\ k' <> k.
Proof.
  induction c as [|[k0 v] c IH]; intros H; [by apply elem_of_nil in H|].
  destruct (String.eqb_spec k0 k) as [->|Hne].
  - rewrite remove_cons_eq in H. destruct (IH H). split; [by apply elem_of_cons; right | done].
  - rewrite remove_cons_ne in H by done. cbn in H. apply elem_of_cons in H as [->|H].
    + split; [by apply elem_of_cons; left | done].
    + destruct (IH H). split; [by apply elem_of_cons; right | done].
Qed.

Lemma nodup_keys_remove k c : NoDup (lru_keys c) -> NoDup (lru_keys (Lru.remove k c)).
Proof.
  induction c as [|[k0 v] c IH]; intros H; [constructor|].
  cbn in H. apply NoDup_cons in H as [Hk0 Hc].
  destruct (String.eqb_spec k0 k) as [->|Hne].
  - rewrite remove_cons_eq. by apply IH.
  - rewrite remove_cons_ne by done. cbn. apply NoDup_cons. split; [|by apply IH].
    intros Hin. apply keys_remove in Hin as [Hin _]. contradiction.
Qed.

Lemma lookup_remove_ne k k' c : k' <> k -> Lru.lookup k' (Lru.remove k c) = Lru.lookup k' c.
Proof.
  intros Hne. induction c as [|[k0 v] c IH]; [reflexivity|].
  destruct (String.eqb_spec k0 k) as [->|Hne0].
  - rewrite remove_cons_eq, lookup_cons_ne by congruence. exact IH.
  - rewrite remove_cons_ne by done.
    destruct (String.eqb_spec k0 k') as [->|Hne1].
    + by rewrite !lookup_cons_eq.
    + by rewrite !lookup_cons_ne.
Qed.

(** The urls of [D] being fewer than the capacity, a hit on one of them
    leaves the entry of [url] in place. *)
Lemma cached_behind_touch url (s : V) (D : list string) c k (v : V) :
  k ∈ D -> k <> url ->
  cached_behind url s D c -> cached_behind url s D (Lru.touch k v c).
Proof.
  intros HkD Hne (pre & post & -> & Hnd & Hsub).
  exists ((k, v) :: Lru.remove k pre), (Lru.remove k post). split; [|split].
  - unfold Lru.touch. rewrite remove_app, remove_cons_ne by done. reflexivity.
  - cbn. apply NoDup_cons. split; [|by apply nodup_keys_remove].
    intros Hin. by apply keys_remove in Hin as [_ ?].
  - intros k' Hk'. cbn in Hk'. apply elem_of_cons in Hk' as [->|Hk']; [done|].
    apply keys_remove in Hk' as [Hk' _]. by apply Hsub.
Qed.

Lemma cached_behind_touch_self url (s : V) (D : list string) c :
  cached_behind url s D c -> cached_behind url s D (Lru.touch url s c).
Proof.
  intros _. exists [], (Lru.remove url c). split; [reflexivity|]. split; [constructor|].
  intros k Hk. by apply elem_of_nil in Hk.
Qed.

Lemma cached_behind_length url (s : V) (D : list string) pre :
  NoDup D -> NoDup (lru_keys pre) -> (forall k, k ∈ lru_keys pre -> k ∈ D /\ k <> url) ->
  (length pre <= length D)%nat.
Proof.
  intros HD Hnd Hsub.
  assert (length pre = length (lru_keys pre)) as -> by (unfold lru_keys; by rewrite length_map).
  apply submseteq_length, NoDup_submseteq; [exact Hnd|]. intros k Hk. by apply Hsub.
Qed.

(** A miss on a url of [D] may evict the last entry; it is not the entry
    of [url], which has fewer than [maxsize - 1] entries before it. *)
Lemma cached_behind_store url (s : V) (D : list string) c k (v : V) :
  NoDup D -> (length D < Lru.maxsize)%nat ->
  k ∈ D -> k <> url -> Lru.lookup k c = None ->
  cached_behind url s D c -> cached_behind url s D (Lru.store k v c).
Proof.
  intros HD Hlen HkD Hne Hmiss (pre & post & -> & Hnd & Hsub).
  assert (NoDup (lru_keys ((k, v) :: pre))) as Hnd'.
  { cbn. apply NoDup_cons. split; [|exact Hnd]. intros Hin.
    apply lookup_none_keys in Hmiss. apply Hmiss.
    unfold lru_keys. rewrite map_app. apply elem_of_app. by left. }
  assert (forall k', k' ∈ lru_keys ((k, v) :: pre) -> k' ∈ D /\ k' <> url) as Hsub'.
  { intros k' Hk'. cbn in Hk'. apply elem_of_cons in Hk' as [->|Hk']; [done | by apply Hsub]. }
  pose proof (cached_behind_length url s D _ HD Hnd' Hsub') as Hle. cbn [length] in Hle.
  unfold Lru.store. destruct (Nat.leb_spec Lru.maxsize (length (pre ++ (url, s) :: post))) as [Hfull|_].
  - destruct post as [|p post].
    + rewrite length_app in Hfull. cbn [length] in Hfull. lia.
    + exists ((k, v) :: pre), (removelast (p :: post)). split; [|by split].
      rewrite removelast_app by discriminate.
      change (removelast ((url, s) :: p :: post)) with ((url, s) :: removelast (p :: post)).
      reflexivity.
  - by exists ((k, v) :: pre), post.
Qed.

End LruFacts.

Section CacheFacts.

Context (W : World).

(** The three outcomes of a call: a hit, a miss whose body raises, a miss
    whose body returns. *)
Lemma analyze_cases (url : string) (st : state) :
  (exists v, Lru.lookup url (lru st) = Some v /\
             analyze_page_structure W url st = (Ok v, set_lru (Lru.touch url v (lru st)) st)) \/
  (Lru.lookup url (lru st) = None /\
   exists e, analyze_page_structure W url st = (Err e, log_fetch url st)) \/
  (Lru.lookup url (lru st) = None /\
   exists v, analyze_page_structure W url st
             = (Ok v, set_lru (Lru.store url v (lru st)) (log_fetch url st))).
Proof.
  unfold analyze_page_structure. destruct (Lru.lookup url (lru st)) as [v|]; [left; eauto|].
  right. unfold analyze_uncached, bind, fetch, lift.
  destruct (requests_get W _ url) as [text|e]; [|left; eauto].
  destruct (page_structure _) as [v|e]; [right | left]; eauto.
Qed.

Lemma analyze_keeps_behind (url : string) (s : PageStructure) (D : list string)
    (u : string) (st : state) :
  NoDup D -> (length D < Lru.maxsize)%nat -> u ∈ D ->
  cached_behind url s D (lru st) ->
  cached_behind url s D (lru (snd (analyze_page_structure W u st))).
Proof.
  intros HD Hlen Hu Hinv.
  destruct (String.eqb_spec u url) as [->|Hne].
  - destruct Hinv as (pre & post & Hc & Hnd & Hsub).
    assert (Lru.lookup url (lru st) = Some s) as Hhit.
    { rewrite Hc. apply lookup_app_behind. intros Hin. by destruct (Hsub _ Hin). }
    destruct (analyze_cases url st) as [(v & Hv & ->)|[[Hv _]|[Hv _]]]; try congruence.
    cbn. assert (v = s) as -> by congruence.
    apply cached_behind_touch_self. by exists pre, post.
  - destruct (analyze_cases u st) as [(v & Hv & ->)|[[Hv [e ->]]|[Hv [v ->]]]]; cbn.
    + by apply cached_behind_touch.
    + exact Hinv.
    + by apply cached_behind_store.
Qed.

Lemma analyze_all_keeps_behind (url : string) (s : PageStructure) (D : list string)
    (urls : list string) :
  NoDup D -> (length D < Lru.maxsize)%nat ->
  forall st,
    (forall u, u ∈ urls -> u ∈ D) ->
    cached_behind url s D (lru st) ->
    cached_behind url s D (lru (analyze_all W urls st)).
Proof.
  intros HD Hlen. induction urls as [|u urls IH]; intros st Hsub Hinv; [exact Hinv|].
  cbn [analyze_all fold_left]. apply IH.
  - intros u' Hu'. apply Hsub. by apply elem_of_cons; right.
  - apply analyze_keeps_behind; [done | done | | done]. apply Hsub. by apply elem_of_cons; left.
Qed.

(** After a call that returns, the entry is the most recently used. *)
Lemma analyze_ok_front (url : string) (st st1 : state) (s : PageStructure) (D : list string) :
  analyze_page_structure W url st = (Ok s, st1) -> cached_behind url s D (lru st1).
Proof.
  intros H.
  assert (exists c, lru st1 = (url, s) :: c) as [c ->].
  { destruct (analyze_cases url st) as [(v & Hv & E)|[[Hv [e E]]|[Hv [v E]]]];
      rewrite E in H; [|discriminate|]; injection H as Hs Hst; subst v st1; cbn;
      unfold Lru.touch, Lru.store; eauto.
    destruct (Nat.leb _ _); eauto. }
  exists [], c. split; [reflexivity|]. split; [constructor|].
  intros k Hk. by apply elem_of_nil in Hk.
Qed.

Lemma analyze_hit (url : string) (s : PageStructure) (D : list string) (st : state) :
  cached_behind url s D (lru st) ->
  Lru.lookup url (lru st) = Some s /\
  analyze_page_structure W url st = (Ok s, set_lru (Lru.touch url s (lru st)) st).
Proof.
  intros (pre & post & Hc & Hnd & Hsub).
  assert (Lru.lookup url (lru st) = Some s) as Hhit.
  { rewrite Hc. apply lookup_app_behind. intros Hin. by destruct (Hsub _ Hin). }
  split; [exact Hhit|]. unfold analyze_page_structure. by rewrite Hhit.
Qed.

Lemma register_fetches (url query : string) (selectors : json) (st : state) :
  fetches (snd (register W url query selectors st)) = fetches st.
Proof.
  pose proof (register_cases W url query selectors st) as H. cbn zeta in H.
  destruct (_generate_endpoint_id _ _ _); by rewrite H.
Qed.

(** With the structure of [url] in the cache, [generate_api_endpoint]
    fetches nothing, whatever the query. *)
Lemma generate_hit_no_fetch (url query : string) (s : PageStructure) (st : state) :
  Lru.lookup url (lru st) = Some s ->
  fetches (snd (generate_api_endpoint W url query st)) = fetches st.
Proof.
  intros Hhit. rewrite generate_unfold. unfold analyze_page_structure. rewrite Hhit.
  destruct (chat_completion W _ _) as [content|e]; [|reflexivity].
  destruct (json_loads W content) as [selectors|e]; [|reflexivity].
  by rewrite register_fetches.
Qed.

End CacheFacts.

(** C8.  When a call of [analyze_page_structure] on a url returns a
    structure and calls on fewer than 100 distinct urls follow, the next
    call on that url returns the same structure and fetches nothing.  The
    first call fetched the page exactly once if the url was not cached,
    and returned the cached structure without any fetch if it was: two
    calls in succession from a miss fetch once in all.  The cache is keyed
    by the url alone: with the url cached, [generate_api_endpoint] fetches
    nothing whatever the query.  A call evicts nothing while the cache
    holds fewer than 100 entries, and at capacity a miss evicts the least
    recently used entry. *)
Theorem analyze_twice_cached (W : World) (url : string) (urls : list string)
    (st st1 : state) (s : PageStructure) :
  analyze_page_structure W url st = (Ok s, st1) ->
  (length (remove_dups urls) < Lru.maxsize)%nat ->
  let st2 := analyze_all W urls st1 in
  (exists st3, analyze_page_structure W url st2 = (Ok s, st3) /\ fetches st3 = fetches st2) /\
  (Lru.lookup url (lru st) = None -> fetches st1 = url :: fetches st) /\
  (forall v, Lru.lookup url (lru st) = Some v -> v = s /\ fetches st1 = fetches st) /\
  (Lru.lookup url (lru st) = None ->
   exists st3, analyze_page_structure W url st1 = (Ok s, st3) /\
               fetches st3 = url :: fetches st) /\
  (forall query, fetches (snd (generate_api_endpoint W url query st2)) = fetches st2) /\
  ((length (lru st) < Lru.maxsize)%nat ->
   forall u v, Lru.lookup u (lru st) = Some v -> Lru.lookup u (lru st1) = Some v) /\
  (Lru.lookup url (lru st) = None -> (Lru.maxsize <= length (lru st))%nat ->
   lru st1 = (url, s) :: removelast (lru st)).
Proof.
  intros Hfirst Hfew st2.
  assert (cached_behind url s (remove_dups urls) (lru st2)) as Hinv.
  { apply analyze_all_keeps_behind;
      [apply NoDup_remove_dups | exact Hfew | | by eapply analyze_ok_front].
    intros u Hu. by apply elem_of_remove_dups. }
  destruct (analyze_hit W url s _ st2 Hinv) as [Hhit Hsecond].
  split; [eexists; split; [exact Hsecond | reflexivity]|].
  assert (Lru.lookup url (lru st) = None -> fetches st1 = url :: fetches st) as Hmiss1.
  { intros Hmiss.
    destruct (analyze_cases W url st) as [(v & Hv & E)|[[Hv [e E]]|[Hv [v E]]]];
      rewrite E in Hfirst; [congruence | discriminate |].
    injection Hfirst as Hs Hst; by subst v st1. }
  split; [exact Hmiss1|]. split; [|split; [|split; [|split]]].
  - intros v Hv.
    destruct (analyze_cases W url st) as [(v' & Hv' & E)|[[Hv' [e E]]|[Hv' [v' E]]]];
      rewrite E in Hfirst; [|discriminate | congruence].
    injection Hfirst as Hs Hst; subst v' st1. split; [congruence | reflexivity].
  - intros Hmiss.
    destruct (analyze_hit W url s [] st1 (analyze_ok_front W url st st1 s [] Hfirst))
      as [_ Hnext].
    eexists. split; [exact Hnext|]. cbn [fetches set_lru]. by apply Hmiss1.
  - intros query. by eapply generate_hit_no_fetch.
  - intros Hroom u v Hu.
    destruct (analyze_cases W url st) as [(v' & Hv & E)|[[Hv [e E]]|[Hv [v' E]]]];
      rewrite E in Hfirst; [|discriminate|]; injection Hfirst as Hs Hst; subst v' st1;
      cbn [lru set_lru log_fetch].
    + unfold Lru.touch. destruct (String.eqb_spec url u) as [<-|Hne].
      * rewrite lookup_cons_eq. congruence.
      * rewrite lookup_cons_ne by done. by rewrite lookup_remove_ne.
    + unfold Lru.store. destruct (Nat.leb_spec Lru.maxsize (length (lru st))); [lia|].
      rewrite lookup_cons_ne; [done | congruence].
  - intros Hmiss Hfull.
    destruct (analyze_cases W url st) as [(v' & Hv & E)|[[Hv [e E]]|[Hv [v' E]]]];
      rewrite E in Hfirst; [congruence | discriminate |].
    injection Hfirst as Hs Hst; subst v' st1. cbn [lru set_lru log_fetch].
    unfold Lru.store. by destruct (Nat.leb_spec Lru.maxsize (length (lru st))); [|lia].
Qed.

Lemma analyze_twice_cached_witness :
  let W := Demo.world in
  let a := "http://a.com" in
  let b := "http://b.com" in
  let urls := [b; a; "http://c.com"; b] in
  let below := snd (analyze_page_structure W b init_state) in
  let full := analyze_all W (numbered_urls 100) init_state in
  let cached := snd (analyze_page_structure W a init_state) in
  (* a miss below capacity, then other urls, then the same url *)
  (let st1 := snd (analyze_page_structure W a below) in
   let st2 := analyze_all W urls st1 in
   analyze_page_structure W a below = (Ok demo_structure, st1) /\
   (length (remove_dups urls) < Lru.maxsize)%nat /\
   Lru.lookup a (lru below) = None /\
   fetches st1 = a :: fetches below /\
   (exists st3, analyze_page_structure W a st1 = (Ok demo_structure, st3) /\
                fetches st3 = a :: fetches below) /\
   (exists st3, analyze_page_structure W a st2 = (Ok demo_structure, st3) /\
                fetches st3 = fetches st2) /\
   fetches (snd (generate_api_endpoint W a "another query" st2)) = fetches st2 /\
   Lru.lookup b (lru below) = Some demo_structure /\
   Lru.lookup b (lru st1) = Some demo_structure) /\
  (* a miss at capacity *)
  (let st1 := snd (analyze_page_structure W a full) in
   analyze_page_structure W a full = (Ok demo_structure, st1) /\
   Lru.lookup a (lru full) = None /\
   length (lru full) = Lru.maxsize /\
   lru st1 = (a, demo_structure) :: removelast (lru full) /\
   Lru.lookup "http://h/0" (lru full) = Some demo_structure /\
   Lru.lookup "http://h/0" (lru st1) = None) /\
  (* a hit *)
  (let st1 := snd (analyze_page_structure W a cached) in
   analyze_page_structure W a cached = (Ok demo_structure, st1) /\
   Lru.lookup a (lru cached) = Some demo_structure /\
   fetches st1 = fetches cached).
Proof.
  intros W a b urls below full cached. split; [|split].
  - intros st1 st2.
    assert (analyze_page_structure W a below = (Ok demo_structure, st1)) as H1
      by (vm_compute; reflexivity).
    assert (length (remove_dups urls) < Lru.maxsize)%nat as H2 by (vm_compute; lia).
    assert (Lru.lookup a (lru below) = None) as Hmiss by (vm_compute; reflexivity).
    assert (Lru.lookup b (lru below) = Some demo_structure) as Hb by (vm_compute; reflexivity).
    assert (length (lru below) < Lru.maxsize)%nat as Hroom by (vm_compute; lia).
    destruct (analyze_twice_cached W a urls below st1 demo_structure H1 H2)
      as (Hsecond & Hone & _ & Htwice & Hquery & Hkeep & _).
    split; [exact H1|]. split; [exact H2|]. split; [exact Hmiss|].
    split; [exact (Hone Hmiss)|]. split; [exact (Htwice Hmiss)|].
    split; [exact Hsecond|]. split; [exact (Hquery "another query")|].
    split; [exact Hb|]. exact (Hkeep Hroom b demo_structure Hb).
  - intros st1.
    assert (analyze_page_structure W a full = (Ok demo_structure, st1)) as H1
      by (vm_compute; reflexivity).
    assert (length (remove_dups ([] : list string)) < Lru.maxsize)%nat as H2
      by (vm_compute; lia).
    assert (Lru.lookup a (lru full) = None) as Hmiss by (vm_compute; reflexivity).
    assert (length (lru full) = Lru.maxsize) as Hlen by (vm_compute; reflexivity).
    destruct (analyze_twice_cached W a [] full st1 demo_structure H1 H2)
      as (_ & _ & _ & _ & _ & _ & Hevict).
    assert (lru st1 = (a, demo_structure) :: removelast (lru full)) as Hlru.
    { apply Hevict; [exact Hmiss|]. rewrite Hlen. lia. }
    split; [exact H1|]. split; [exact Hmiss|]. split; [exact Hlen|]. split; [exact Hlru|].
    split; vm_compute; reflexivity.
  - intros st1.
    assert (analyze_page_structure W a cached = (Ok demo_structure, st1)) as H1
      by (vm_compute; reflexivity).
    assert (length (remove_dups ([] : list string)) < Lru.maxsize)%nat as H2
      by (vm_compute; lia).
    assert (Lru.lookup a (lru cached) = Some demo_structure) as Hhit by (vm_compute; reflexivity).
    destruct (analyze_twice_cached W a [] cached st1 demo_structure H1 H2)
      as (_ & _ & Hcached & _).
    split; [exact H1|]. split; [exact Hhit|]. exact (proj2 (Hcached demo_structure Hhit)).
Defined.

(* ===================================================================== *)
(** ** Endpoint generation and replay *)
(* ===================================================================== *)

Section ReplayFacts.

Context (W : World).

(** [generate_api_endpoint] stores the decoded answer as a whole. *)
Lemma generate_stores_payload (url query : string) (st st' : state)
    (id : string) (cfg : EndpointConfig) :
  generate_api_endpoint W url query st = (Ok (id, cfg), st') ->
  exists content, json_loads W content = Ok (cfg_selectors cfg).
Proof.
  intros H.
  destruct (generate_cases W url query st) as [(e & He & _)|(id' & cfg' & c & He & _ & Hj & _)];
    rewrite H in He; cbn in He; [discriminate|].
  injection He as <- <-. eauto.
Qed.

(** Replaying a configuration whose [selectors] is an object iterates
    over its keys, and indexing a key raises. *)
Lemma scrape_object_raises (soup : node) (k : string) (v : json)
    (fields : list (string * json)) :
  rbind (Py.iter (JObj ((k, v) :: fields))) (scrape_selectors W soup []) = Err TypeError.
Proof. reflexivity. Qed.

Lemma scrape_element_keeps (P : ResultEntry -> Prop) (selector : json)
    (results results' : list ResultEntry) (element : node) :
  (forall description v, Py.truthy (Some v) = true ->
                         P {| r_type := description; r_value := v |}) ->
  scrape_element selector results element = Ok results' ->
  Forall P results -> Forall P results'.
Proof.
  intros HP H Hres. unfold scrape_element in H.
  destruct (extract_value selector element) as [[v|]|e]; cbn [rbind] in H;
    [|by injection H as <- | discriminate].
  destruct (Py.truthy (Some v)) eqn:Ht; [|by injection H as <-].
  destruct (Py.getitem selector "description") as [description|e]; cbn [rbind] in H;
    [|discriminate].
  injection H as <-. apply Forall_app. split; [exact Hres|].
  constructor; [by apply HP | constructor].
Qed.

Lemma scrape_elements_keeps (P : ResultEntry -> Prop) (selector : json) (els : list node) :
  (forall description v, Py.truthy (Some v) = true ->
                         P {| r_type := description; r_value := v |}) ->
  forall results results',
    scrape_elements selector results els = Ok results' ->
    Forall P results -> Forall P results'.
Proof.
  intros HP. induction els as [|element els IH]; intros results results' H Hres.
  - by injection H as <-.
  - cbn [scrape_elements] in H.
    destruct (scrape_element selector results element) as [r1|e] eqn:E; cbn [rbind] in H;
      [|discriminate].
    eapply IH; [exact H|]. by eapply scrape_element_keeps.
Qed.

Lemma scrape_selectors_keeps (P : ResultEntry -> Prop) (soup : node) (sels : list json) :
  (forall description v, Py.truthy (Some v) = true ->
                         P {| r_type := description; r_value := v |}) ->
  forall results results',
    scrape_selectors W soup results sels = Ok results' ->
    Forall P results -> Forall P results'.
Proof.
  intros HP. induction sels as [|selector sels IH]; intros results results' H Hres.
  - by injection H as <-.
  - cbn [scrape_selectors] in H. unfold scrape_selector in H.
    destruct (select_elements W soup selector) as [els|e]; cbn [rbind] in H; [|discriminate].
    destruct (scrape_elements selector results els) as [r1|e] eqn:E; cbn [rbind] in H;
      [|discriminate].
    eapply IH; [exact H|]. by eapply scrape_elements_keeps.
Qed.

Lemma truthy_non_empty (v : attr_value) : Py.truthy (Some v) = true -> non_empty v.
Proof.
  intros H. split; [exact H|]. split; intros ->; discriminate.
Qed.

(** An element whose value is empty or undefined leaves the results as
    they are. *)
Lemma scrape_element_empty (selector : json) (results : list ResultEntry)
    (element : node) (value : option attr_value) :
  extract_value selector element = Ok value -> Py.truthy value = false ->
  scrape_element selector results element = Ok results.
Proof.
  intros Hv Ht. unfold scrape_element. rewrite Hv. cbn [rbind].
  destruct value as [v|]; [by rewrite Ht | reflexivity].
Qed.

Lemma scrape_elements_app (selector : json) (els1 els2 : list node) :
  forall results,
    scrape_elements selector results (els1 ++ els2) =
      rbind (scrape_elements selector results els1)
        (fun results' => scrape_elements selector results' els2).
Proof.
  induction els1 as [|element els1 IH]; intros results; [reflexivity|].
  cbn [app scrape_elements].
  destruct (scrape_element selector results element) as [r1|e]; cbn [rbind]; [apply IH | reflexivity].
Qed.

End ReplayFacts.

(** C1.  The [selectors] array of the decoded answer, and nothing else of
    it, becomes the [selectors] of the configuration: with the answer the
    prompt asks for, an object holding a [selectors] array, the code
    stores the whole object instead, and replaying the endpoint raises
    [TypeError]. *)
Theorem selectors_hold_whole_payload :
  let r := generate_api_endpoint Demo.world "http://a.com" "q" init_state in
  exists id cfg,
    fst r = Ok (id, cfg) /\
    json_loads Demo.world Demo.payload_text = Ok Demo.payload /\
    Py.getitem Demo.payload "selectors" = Ok (JArr [Demo.h1_selector]) /\
    cfg_selectors cfg = Demo.payload /\
    cfg_selectors cfg <> JArr [Demo.h1_selector] /\
    fst (execute_scraping Demo.world id (snd r)) = Err TypeError.
Proof.
  eexists _, _. split; [reflexivity|]. repeat split. discriminate.
Qed.

(** C10 as stated fails.  Where a url without a scheme is refused by the
    fetch, [generate_api_endpoint] raises that error, in the analysis,
    before the identifier is derived. *)
Lemma no_dslash_fetch_error_first :
  PyStr.contains_dslash "example.com" = false /\
  fst (generate_api_endpoint Demo.strict "example.com" "q" init_state)
    = Err (ValueError "Invalid URL: No scheme supplied") /\
  fst (generate_api_endpoint Demo.strict "example.com" "q" init_state) <> Err IndexError.
Proof. repeat split. discriminate. Qed.

(** C10, amended.  For a url without ["//"], [_generate_endpoint_id]
    raises [IndexError], so [generate_api_endpoint] always raises and
    registers nothing.  What it raises is the error of the first step
    that fails: the error of the analysis of the page, else the error of
    the inference call, else the error of the decoding, and, when these
    three succeed, the [IndexError] of the derivation.
    [POST /api/analyze] with such a url never answers with an endpoint. *)
Theorem no_dslash_no_endpoint (W : World) (url query : string) (st : state) :
  PyStr.contains_dslash url = false ->
  _generate_endpoint_id (py_hash W) url query = Err IndexError /\
  fst (generate_api_endpoint W url query st) =
    match analyze_page_structure W url st with
    | (Err e, _) => Err e
    | (Ok structure, st1) =>
        match chat_completion W (completions st1)
                (_create_selector_prompt W structure query) with
        | Err e => Err e
        | Ok content =>
            match json_loads W content with
            | Err e => Err e
            | Ok _ => Err IndexError
            end
        end
    end /\
  cached_schemas (snd (generate_api_endpoint W url query st)) = cached_schemas st /\
  (forall resp,
      fst (analyze_webpage W (Some url) (Some query) st) = Ok resp -> status resp = 400).
Proof.
  intros H. pose proof (endpoint_id_no_dslash (py_hash W) url query H) as Hid.
  destruct (generate_error_no_dslash W url query st H) as (e & He & Hs).
  split; [exact Hid|]. split; [|split; [exact Hs|]].
  - rewrite generate_unfold.
    destruct (analyze_page_structure W url st) as [[structure|e1] st1]; [|reflexivity].
    destruct (chat_completion W _ _) as [content|e2]; [|reflexivity].
    destruct (json_loads W content) as [selectors|e3]; [|reflexivity].
    pose proof (register_cases W url query selectors (count_completion st1)) as Hr.
    cbn zeta in Hr. rewrite Hid in Hr. by rewrite Hr.
  - intros resp. rewrite analyze_webpage_unfold.
    destruct (String.eqb url "" || String.eqb query "")%bool; [by intros [= <-]|].
    destruct (generate_api_endpoint W url query st) as [[created|e'] st1]; cbn in He; [|discriminate].
    discriminate.
Qed.

Lemma no_dslash_no_endpoint_witness :
  PyStr.contains_dslash "example.com" = false /\
  (* every step before the derivation succeeds *)
  fst (generate_api_endpoint Demo.world "example.com" "q" init_state) = Err IndexError /\
  (* the fetch of the analysis fails *)
  fst (generate_api_endpoint Demo.strict "example.com" "q" init_state)
    = Err (ValueError "Invalid URL: No scheme supplied") /\
  cached_schemas (snd (generate_api_endpoint Demo.world "example.com" "q" init_state))
    = cached_schemas init_state /\
  (forall resp,
      fst (analyze_webpage Demo.world (Some "example.com") (Some "q") init_state) = Ok resp ->
      status resp = 400).
Proof.
  assert (PyStr.contains_dslash "example.com" = false) as H by reflexivity.
  destruct (no_dslash_no_endpoint Demo.world "example.com" "q" init_state H)
    as (_ & Hworld & Hreg & Hroute).
  destruct (no_dslash_no_endpoint Demo.strict "example.com" "q" init_state H)
    as (_ & Hstrict & _).
  split; [exact H|]. split; [exact Hworld|]. split; [exact Hstrict|].
  split; [exact Hreg | exact Hroute].
Defined.

(** Every entry of the results that [execute_scraping] returns has a
    value that is defined and not empty; and a matched element from which
    a value was read, empty or undefined, adds no entry and raises
    nothing: the loop over the matched elements runs as if the element
    were not there. *)
Lemma results_non_empty (W : World) (id : string) (st st' : state)
    (results acc : list ResultEntry) (selector : json)
    (els1 els2 : list node) (element : node) (value : option attr_value) :
  execute_scraping W id st = (Ok results, st') ->
  extract_value selector element = Ok value ->
  Py.truthy value = false ->
  Forall (fun entry => non_empty (r_value entry)) results /\
  scrape_element selector acc element = Ok acc /\
  scrape_elements selector acc (els1 ++ element :: els2) =
    scrape_elements selector acc (els1 ++ els2).
Proof.
  intros Hex Hv Ht. split; [|split].
  - unfold execute_scraping, bind, resolve, fetch, lift in Hex.
    destruct (cached_schemas st !! id) as [config|]; [|discriminate].
    destruct (requests_get W _ _) as [text|e]; [|discriminate].
    destruct (Py.iter (cfg_selectors config)) as [sels|e]; cbn [rbind] in Hex; [|discriminate].
    injection Hex as Hex _.
    eapply (scrape_selectors_keeps W); [|exact Hex | constructor].
    intros description v Hvt. by apply truthy_non_empty.
  - by eapply scrape_element_empty.
  - rewrite !scrape_elements_app.
    destruct (scrape_elements selector acc els1) as [r1|e]; cbn [rbind]; [|reflexivity].
    cbn [scrape_elements]. by rewrite (scrape_element_empty selector r1 element value Hv Ht).
Qed.

Lemma results_non_empty_witness :
  let st := snd (register Demo.world "http://a.com" "q" (JArr [Demo.h1_selector]) init_state) in
  let results := [{| r_type := JStr "heading"; r_value := AStr "Hi" |}] in
  let blank := Tag "h1" [] [Text "  "] in
  let els1 := [Tag "h1" [] [Text "A"]] in
  let els2 := [Tag "h1" [] [Text "B"]] in
  execute_scraping Demo.world "scrape_a_com_1" st = (Ok results, log_fetch "http://a.com" st) /\
  extract_value Demo.h1_selector blank = Ok (Some (AStr "")) /\
  Py.truthy (Some (AStr "")) = false /\
  Forall (fun entry => non_empty (r_value entry)) results /\
  scrape_element Demo.h1_selector [] blank = Ok [] /\
  scrape_elements Demo.h1_selector [] (els1 ++ blank :: els2) =
    scrape_elements Demo.h1_selector [] (els1 ++ els2).
Proof.
  intros st results blank els1 els2.
  split; [reflexivity|]. split; [reflexivity|]. split; [reflexivity|].
  apply (results_non_empty Demo.world "scrape_a_com_1" st (log_fetch "http://a.com" st)
           results [] Demo.h1_selector els1 els2 blank (Some (AStr "")));
    reflexivity.
Defined.

(** C7.  A matched element whose text or attribute is empty or undefined
    adds no entry and raises no error: true of a matched element, as the
    replay of a CSS selector reading the [href] of the [h1] of the page
    shows (no [href], no entry, no error); but the replay of a
    text-pattern selector reading [href] matches the text node [Hi],
    whose [href] is undefined, and raises [AttributeError] instead of
    dropping it. *)
Theorem undefined_attribute_of_text_node_raises :
  let by_css := one_endpoint "e" "http://a.com" (JArr [href_selector "css" "h1"]) in
  let by_text := one_endpoint "e" "http://a.com" (JArr [href_selector "xpath" "Hi"]) in
  select_elements Demo.world Demo.page (href_selector "css" "h1")
    = Ok [Tag "h1" [] [Text "Hi"]] /\
  fst (execute_scraping Demo.world "e" by_css) = Ok [] /\
  select_elements Demo.world Demo.page (href_selector "xpath" "Hi") = Ok [Text "Hi"] /\
  fst (execute_scraping Demo.world "e" by_text) = Err AttributeError.
Proof. repeat split. Qed.

(* ===================================================================== *)
(** ** Further properties *)
(* ===================================================================== *)

(** A [nav] element is preferred to an element of class [navigation] that
    comes before it, even when it holds no link. *)
Example navigation_prefers_nav : _extract_navigation MoreDocs.nav_and_class = Some [].
Proof. reflexivity. Qed.

Example schema_empty_class : _generate_page_schema MoreDocs.empty_class = Err IndexError.
Proof. reflexivity. Qed.

Example numbered_urls_three :
  numbered_urls 3 = ["http://h/0"; "http://h/1"; "http://h/2"].
Proof. reflexivity. Qed.

(* ===================================================================== *)
(** ** Further properties: endpoint identifiers and the registry *)
(* ===================================================================== *)

Section MoreStringFacts.

Lemma all_chars_append (p : ascii -> bool) (s t : string) :
  PyStr.all_chars p (s +:+ t) = (PyStr.all_chars p s && PyStr.all_chars p t)%bool.
Proof.
  induction s as [|c s IH]; [reflexivity|].
  rewrite append_cons. cbn [PyStr.all_chars]. by rewrite IH, andb_assoc.
Qed.

Lemma all_chars_impl (p q : ascii -> bool) (s : string) :
  (forall c, p c = true -> q c = true) ->
  PyStr.all_chars p s = true -> PyStr.all_chars q s = true.
Proof.
  intros Hpq. induction s as [|c s IH]; [done|]. cbn [PyStr.all_chars].
  intros [Hc Hs]%andb_true_iff. by rewrite (Hpq c Hc), IH.
Qed.

Lemma digit_is_id_char (c : ascii) : PyStr.is_digit c = true -> is_id_char c = true.
Proof.
  intros H. unfold is_id_char, PyStr.is_alnum. rewrite H.
  by rewrite !orb_true_r.
Qed.

(** A scheme without a slash is the first piece of the split. *)
Lemma split_go_scheme (s rest : string) :
  PyStr.all_chars not_slash s = true ->
  forall cur,
    PyStr.split_go cur (s +:+ String "/" (String "/" rest))
    = (cur +:+ s) :: PyStr.split_go "" rest.
Proof.
  induction s as [|c s IH]; intros Hs cur.
  - change ("" +:+ String "/" (String "/" rest)) with (String "/" (String "/" rest)).
    rewrite split_go_cons2. cbn [PyStr.is_slash Ascii.eqb Bool.eqb andb].
    by rewrite append_empty_r.
  - cbn [PyStr.all_chars] in Hs. apply andb_true_iff in Hs as [Hc Hs].
    rewrite append_cons. pose proof (IH Hs (cur +:+ String c "")) as IH'.
    rewrite append_snoc in IH'.
    destruct (s +:+ String "/" (String "/" rest)) as [|c' r] eqn:E.
    { destruct s; discriminate. }
    rewrite split_go_cons2. unfold not_slash in Hc. apply negb_true_iff in Hc.
    rewrite Hc. cbn [andb]. exact IH'.
Qed.

End MoreStringFacts.

(** X1.  Every identifier that [_generate_endpoint_id] returns is
    [scrape_], a base of letters, digits and underscores, an underscore and
    the decimal digits of a number below 10000; the identifier as a whole
    holds only letters, digits and underscores. *)
Theorem endpoint_id_shape (py_hash : string -> Z) (url query id : string) :
  _generate_endpoint_id py_hash url query = Ok id ->
  exists base n,
    id = "scrape_" +:+ base +:+ "_" +:+ PyStr.of_int n /\
    PyStr.all_chars is_id_char base = true /\
    0 <= n < 10000 /\
    PyStr.all_chars PyStr.is_digit (PyStr.of_int n) = true /\
    PyStr.of_int n <> "" /\
    PyStr.all_chars is_id_char id = true.
Proof.
  unfold _generate_endpoint_id.
  destruct (PyStr.split_dslash url) as [|p0 [|piece more]]; try discriminate.
  intros [= <-].
  assert (0 <= py_hash query mod 10000 < 10000) as Hn by (apply Z.mod_pos_bound; lia).
  destruct (of_int_digits (py_hash query mod 10000)) as [Hd Hne]; [lia|].
  exists (PyStr.sub_non_alnum piece), (py_hash query mod 10000).
  split; [reflexivity|]. split; [apply sub_non_alnum_chars|].
  split; [exact Hn|]. split; [exact Hd|]. split; [exact Hne|].
  rewrite !all_chars_append, sub_non_alnum_chars.
  rewrite (all_chars_impl _ _ _ digit_is_id_char Hd). reflexivity.
Qed.

Lemma endpoint_id_shape_witness :
  _generate_endpoint_id (py_hash Demo.world) "http://example.com/a-b" "q" = Ok "scrape_example_com_a_b_1" /\
  exists base n,
    "scrape_example_com_a_b_1" = "scrape_" +:+ base +:+ "_" +:+ PyStr.of_int n /\
    PyStr.all_chars is_id_char base = true /\
    0 <= n < 10000 /\
    PyStr.all_chars PyStr.is_digit (PyStr.of_int n) = true /\
    PyStr.of_int n <> "" /\
    PyStr.all_chars is_id_char "scrape_example_com_a_b_1" = true.
Proof.
  split; [reflexivity|].
  apply (endpoint_id_shape (py_hash Demo.world) "http://example.com/a-b" "q"). reflexivity.
Defined.

(** X2.  The identifier does not depend on the scheme, and depends on the
    query only through its hash modulo 10000: two urls that differ only in
    a slash-free part before the first ["//"], with queries whose hashes
    are congruent, get the same identifier. *)
Theorem endpoint_id_ignores_scheme (py_hash : string -> Z)
    (scheme1 scheme2 rest query1 query2 : string) :
  PyStr.all_chars not_slash scheme1 = true ->
  PyStr.all_chars not_slash scheme2 = true ->
  py_hash query1 mod 10000 = py_hash query2 mod 10000 ->
  _generate_endpoint_id py_hash (scheme1 +:+ "//" +:+ rest) query1
  = _generate_endpoint_id py_hash (scheme2 +:+ "//" +:+ rest) query2.
Proof.
  intros H1 H2 Hq. unfold _generate_endpoint_id, PyStr.split_dslash.
  change ("//" +:+ rest) with (String "/" (String "/" rest)).
  rewrite (split_go_scheme scheme1 rest H1), (split_go_scheme scheme2 rest H2).
  destruct (PyStr.split_go "" rest) as [|piece more]; [reflexivity|]. by rewrite Hq.
Qed.

Lemma endpoint_id_ignores_scheme_witness :
  PyStr.all_chars not_slash "http:" = true /\
  PyStr.all_chars not_slash "https:" = true /\
  py_hash Demo.world "q" mod 10000 = py_hash Demo.world "r" mod 10000 /\
  _generate_endpoint_id (py_hash Demo.world) ("http:" +:+ "//" +:+ "a.com/x") "q"
  = _generate_endpoint_id (py_hash Demo.world) ("https:" +:+ "//" +:+ "a.com/x") "r".
Proof.
  split; [reflexivity|]. split; [reflexivity|]. split; [reflexivity|].
  apply (endpoint_id_ignores_scheme (py_hash Demo.world) "http:" "https:" "a.com/x" "q" "r");
    reflexivity.
Defined.

Section MoreRegistryFacts.

Context (W : World).

Lemma register_ok (url query : string) (selectors : json) (st : state) (id : string) :
  _generate_endpoint_id (py_hash W) url query = Ok id ->
  let cfg := {| cfg_url := url; cfg_selectors := selectors; cfg_query := query;
                cfg_method := "GET";
                cfg_parameters := {| format := "json"; cache_timeout := 3600 |} |} in
  register W url query selectors st
  = (Ok (id, cfg), set_cached_schemas (<[id := cfg]> (cached_schemas st)) st).
Proof.
  intros Hid. pose proof (register_cases W url query selectors st) as H.
  cbn zeta in H. by rewrite Hid in H.
Qed.

(** A request never removes an identifier from the registry. *)
Lemma handle_keeps_registered (r : request) (st : state) (id : string) :
  is_Some (cached_schemas st !! id) ->
  is_Some (cached_schemas (snd (handle W r st)) !! id).
Proof.
  intros H.
  destruct (handle_cached_schemas W r st) as [E|(url & query & id' & cfg & _ & _ & E)];
    rewrite E; [exact H|].
  destruct (decide (id' = id)) as [->|Hne].
  - rewrite lookup_insert_eq. eauto.
  - by rewrite lookup_insert_ne.
Qed.

End MoreRegistryFacts.

(** X3.  Two registrations whose identifiers collide: the second silently
    replaces the first.  Resolving the identifier yields the second
    configuration, and every other identifier keeps what it had. *)
Theorem colliding_registration_overwrites (W : World)
    (url1 query1 url2 query2 : string) (s1 s2 : json) (st : state) (id : string) :
  _generate_endpoint_id (py_hash W) url1 query1 = Ok id ->
  _generate_endpoint_id (py_hash W) url2 query2 = Ok id ->
  let st1 := snd (register W url1 query1 s1 st) in
  let st2 := snd (register W url2 query2 s2 st1) in
  (exists cfg, resolve id st2 = (Ok cfg, st2) /\
               cfg_url cfg = url2 /\ cfg_query cfg = query2 /\ cfg_selectors cfg = s2) /\
  (forall id', id' <> id -> cached_schemas st2 !! id' = cached_schemas st !! id').
Proof.
  intros H1 H2 st1 st2. subst st1 st2.
  rewrite (register_ok W url1 query1 s1 st id H1). cbn [snd].
  rewrite (register_ok W url2 query2 s2 _ id H2). cbn [snd].
  split.
  - eexists. split.
    + unfold resolve, set_cached_schemas. cbn [cached_schemas].
      rewrite lookup_insert_eq. reflexivity.
    + by repeat split.
  - intros id' Hne. unfold set_cached_schemas. cbn [cached_schemas].
    by rewrite !lookup_insert_ne.
Qed.

Lemma colliding_registration_overwrites_witness :
  let W := Demo.world in
  let st1 := snd (register W "http://a.com" "q" JNull init_state) in
  let st2 := snd (register W "https://a.com" "r" (JArr []) st1) in
  _generate_endpoint_id (py_hash W) "http://a.com" "q" = Ok "scrape_a_com_1" /\
  _generate_endpoint_id (py_hash W) "https://a.com" "r" = Ok "scrape_a_com_1" /\
  (exists cfg, resolve "scrape_a_com_1" st2 = (Ok cfg, st2) /\
               cfg_url cfg = "https://a.com" /\ cfg_query cfg = "r" /\
               cfg_selectors cfg = JArr []) /\
  (forall id', id' <> "scrape_a_com_1" ->
               cached_schemas st2 !! id' = cached_schemas init_state !! id').
Proof.
  intros W st1 st2. split; [reflexivity|]. split; [reflexivity|].
  apply (colliding_registration_overwrites W "http://a.com" "q" "https://a.com" "r"
           JNull (JArr []) init_state "scrape_a_com_1"); reflexivity.
Defined.

(** X4.  The registry only grows: an identifier that is registered stays
    registered through any sequence of requests. *)
Theorem registered_stays_registered (W : World) (rs : list request) (st : state) (id : string) :
  is_Some (cached_schemas st !! id) ->
  is_Some (cached_schemas (serve W rs st) !! id).
Proof.
  revert st. induction rs as [|r rs IH]; intros st H; [exact H|].
  cbn [serve]. apply IH. by apply handle_keeps_registered.
Qed.

Lemma registered_stays_registered_witness :
  let st := snd (register Demo.world "http://a.com" "q" JNull init_state) in
  let rs := [GetScrape "nope"; PostAnalyze (Some "http://b.com") (Some "q"); PostAnalyze None None] in
  is_Some (cached_schemas st !! "scrape_a_com_1") /\
  is_Some (cached_schemas (serve Demo.world rs st) !! "scrape_a_com_1").
Proof.
  intros st rs.
  assert (is_Some (cached_schemas st !! "scrape_a_com_1")) as H by (eexists; reflexivity).
  split; [exact H|].
  exact (registered_stays_registered Demo.world rs st "scrape_a_com_1" H).
Defined.

(* ===================================================================== *)
(** ** Further properties: structure analysis *)
(* ===================================================================== *)

Section MoreSoupFacts.

Lemma find_by_none (p : node -> bool) (soup : node) :
  Soup.find_by p soup = None <-> Soup.find_all_by p soup = [].
Proof. unfold Soup.find_by. by destruct (Soup.find_all_by p soup). Qed.

Lemma find_all_by_In (p : node -> bool) (soup d : node) :
  In d (Soup.find_all_by p soup) <->
  In d (Soup.descendants soup) /\ Soup.is_tag d = true /\ p d = true.
Proof.
  unfold Soup.find_all_by. rewrite filter_In, andb_true_iff. tauto.
Qed.

Lemma find_all_by_nil_iff (p : node -> bool) (soup : node) :
  Soup.find_all_by p soup = [] <->
  forall d, In d (Soup.descendants soup) -> Soup.is_tag d = true -> p d = false.
Proof.
  split.
  - intros H d Hd Ht. pose proof (filter_nil_inv _ _ H d Hd) as E. cbn beta in E.
    by rewrite Ht in E.
  - intros H. apply filter_nil_none. intros d Hd.
    destruct (Soup.is_tag d) eqn:Ht; [|reflexivity]. by rewrite (H d Hd Ht).
Qed.

Lemma Forall2_map_In {A B} (R : A -> B -> Prop) (f : A -> B) (l : list A) :
  (forall x, In x l -> R x (f x)) -> Forall2 R l (List.map f l).
Proof.
  induction l as [|x l IH]; intros H; cbn [List.map]; constructor.
  - apply H. by left.
  - apply IH. intros y Hy. apply H. by right.
Qed.

Lemma py_max_some {A} (key : A -> nat) (l : list A) :
  l <> [] -> exists m, py_max key l = Some m.
Proof. destruct l as [|x l]; [done|]. intros _. cbn. eauto. Qed.

Lemma find_all_in_nil (soup : node) :
  Soup.find_all_in content_tags soup = [] <->
  forall t, In t content_tags -> Soup.find_all t soup = [].
Proof.
  unfold Soup.find_all_in, Soup.find_all. split.
  - intros H t Ht. apply find_all_by_nil_iff. intros d Hd Htag.
    pose proof (proj1 (find_all_by_nil_iff _ _) H d Hd Htag) as E.
    unfold Soup.has_name_in, content_tags in E. cbn [existsb] in E.
    apply orb_false_iff in E as [E1 E]. apply orb_false_iff in E as [E2 E].
    apply orb_false_iff in E as [E3 _].
    cbn in Ht. destruct Ht as [<-|[<-|[<-|[]]]]; assumption.
  - intros H. apply find_all_by_nil_iff. intros d Hd Htag.
    unfold Soup.has_name_in, content_tags. cbn [existsb].
    rewrite (proj1 (find_all_by_nil_iff _ _) (H "article" ltac:(cbn; auto)) d Hd Htag).
    rewrite (proj1 (find_all_by_nil_iff _ _) (H "section" ltac:(cbn; auto)) d Hd Htag).
    rewrite (proj1 (find_all_by_nil_iff _ _) (H "div" ltac:(cbn; auto)) d Hd Htag).
    reflexivity.
Qed.

End MoreSoupFacts.

(** X5.  [_extract_navigation] returns nothing exactly when the document
    has no [nav] element, no element of class [navigation] and no element
    whose id is [navigation].  Otherwise it returns one link for each [a]
    element below the landmark, in document order, with the text of the
    anchor and its [href], absent when the anchor has none: a landmark
    without anchors gives the empty list, and no anchor is left out. *)
Theorem navigation_links (soup : node) :
  match _extract_navigation soup with
  | None =>
      forall d, In d (Soup.descendants soup) -> Soup.is_tag d = true ->
                Soup.has_name "nav" d = false /\
                Soup.has_class "navigation" d = false /\
                Soup.has_id "navigation" d = false
  | Some links =>
      exists nav,
        nav_landmark soup = Some nav /\
        In nav (Soup.descendants soup) /\
        (Soup.has_name "nav" nav = true \/ Soup.has_class "navigation" nav = true
         \/ Soup.has_id "navigation" nav = true) /\
        Forall2 (fun a link => nav_text link = Soup.get_text a /\
                               nav_href link = Soup.get a "href")
          (Soup.find_all "a" nav) links
  end.
Proof.
  unfold _extract_navigation. fold (nav_landmark soup).
  destruct (nav_landmark soup) as [nav|] eqn:E.
  - exists nav. split; [reflexivity|].
    assert (forall p, Soup.find_by p soup = Some nav ->
                      In nav (Soup.descendants soup) /\ p nav = true) as Hfind.
    { intros p Hp. unfold Soup.find_by in Hp.
      destruct (Soup.find_all_by p soup) as [|x l] eqn:El; [discriminate|].
      injection Hp as ->.
      assert (In nav (Soup.find_all_by p soup)) as Hin by (rewrite El; by left).
      apply find_all_by_In in Hin. tauto. }
    unfold nav_landmark, Soup.find, Soup.find_class, Soup.find_id, or_else in E.
    assert (In nav (Soup.descendants soup) /\
            (Soup.has_name "nav" nav = true \/ Soup.has_class "navigation" nav = true
             \/ Soup.has_id "navigation" nav = true)) as [Hin Hp].
    { destruct (Soup.find_by (Soup.has_name "nav") soup) eqn:E1.
      - rewrite E in E1. destruct (Hfind _ E1). auto.
      - destruct (Soup.find_by (Soup.has_class "navigation") soup) eqn:E2.
        + rewrite E in E2. destruct (Hfind _ E2). auto.
        + destruct (Hfind _ E). auto. }
    split; [exact Hin|]. split; [exact Hp|].
    apply Forall2_map_In. intros a _. by split.
  - intros d Hd Ht.
    unfold nav_landmark, Soup.find, Soup.find_class, Soup.find_id, or_else in E.
    destruct (Soup.find_by (Soup.has_name "nav") soup) eqn:E1; [discriminate|].
    destruct (Soup.find_by (Soup.has_class "navigation") soup) eqn:E2; [discriminate|].
    apply find_by_none in E1, E2, E.
    repeat split; eapply find_all_by_nil_iff; eauto.
Qed.

(** X6.  The main content is absent exactly when the document has no main
    landmark and no [article], [section] or [div] element: as soon as one
    of these exists, a text (possibly empty) is returned. *)
Theorem main_content_absent_iff (soup : node) :
  _identify_main_content soup = None <->
  no_main_landmark soup /\ Soup.find_all_in content_tags soup = [].
Proof.
  split.
  - intros H.
    assert (no_main_landmark soup) as Hno.
    { unfold _identify_main_content, or_else in H. unfold no_main_landmark.
      destruct (Soup.find "main" soup); [discriminate|].
      destruct (Soup.find_id "main" soup); [discriminate|].
      destruct (Soup.find_class "main" soup); [discriminate|]. done. }
    split; [exact Hno|].
    rewrite (identify_main_content_last_tag soup Hno) in H.
    apply find_all_in_nil. unfold content_tags in *. cbn [fold_left] in H.
    assert (forall mc t, main_content_step soup mc t = None ->
                         mc = None /\ Soup.find_all t soup = []) as Hstep.
    { intros mc t Hs. destruct (list_eq_nil_dec (Soup.find_all t soup)) as [E|E].
      - by rewrite (main_content_step_none _ _ _ E) in Hs.
      - rewrite (main_content_step_some _ _ _ E) in Hs.
        destruct (py_max_some text_len _ E) as [m Hm]. congruence. }
    destruct (main_content_step soup _ "div") as [m|] eqn:E3; [discriminate|].
    apply Hstep in E3 as [E2 H3]. apply Hstep in E2 as [E1 H2]. apply Hstep in E1 as [_ H1].
    intros t [<-|[<-|[<-|[]]]]; assumption.
  - intros [Hno Hnil]. rewrite (identify_main_content_last_tag soup Hno).
    pose proof (proj1 (find_all_in_nil soup) Hnil) as Hall.
    unfold content_tags. cbn [fold_left].
    rewrite !main_content_step_none; [reflexivity | | |]; apply Hall; cbn; auto.
Qed.

(** X7.  Without a main landmark, a [div] takes precedence over every
    [article] and [section]: when the document has a [div], the main
    content is the text of the first [div] of largest text length,
    whatever the other containers hold. *)
Theorem main_content_prefers_div (soup : node) :
  no_main_landmark soup ->
  Soup.find_all "div" soup <> [] ->
  exists pre m post,
    Soup.find_all "div" soup = (pre ++ m :: post)%list /\
    (forall x, In x pre -> (text_len x < text_len m)%nat) /\
    (forall x, In x post -> (text_len x <= text_len m)%nat) /\
    _identify_main_content soup = Some (Soup.get_text m).
Proof.
  intros Hno Hdiv. rewrite (identify_main_content_last_tag soup Hno).
  unfold content_tags. cbn [fold_left].
  rewrite (main_content_step_some soup _ "div" Hdiv).
  destruct (py_max_some text_len _ Hdiv) as [m Hm]. rewrite Hm.
  destruct (py_max_first _ _ _ Hm) as (pre & post & Hc & Hpre & Hpost).
  by exists pre, m, post.
Qed.

Lemma main_content_prefers_div_witness :
  no_main_landmark MoreDocs.section_and_divs /\
  Soup.find_all "div" MoreDocs.section_and_divs <> [] /\
  _identify_main_content MoreDocs.section_and_divs = Some "ab" /\
  exists pre m post,
    Soup.find_all "div" MoreDocs.section_and_divs = (pre ++ m :: post)%list /\
    (forall x, In x pre -> (text_len x < text_len m)%nat) /\
    (forall x, In x post -> (text_len x <= text_len m)%nat) /\
    _identify_main_content MoreDocs.section_and_divs = Some (Soup.get_text m).
Proof.
  assert (no_main_landmark MoreDocs.section_and_divs) as H1 by (repeat split).
  assert (Soup.find_all "div" MoreDocs.section_and_divs <> []) as H2 by discriminate.
  split; [exact H1|]. split; [exact H2|]. split; [reflexivity|].
  exact (main_content_prefers_div MoreDocs.section_and_divs H1 H2).
Defined.

Lemma main_content_absent_iff_witness :
  no_main_landmark Docs.plain /\ Soup.find_all_in content_tags Docs.plain = [] /\
  _identify_main_content Docs.plain = None.
Proof.
  assert (no_main_landmark Docs.plain /\ Soup.find_all_in content_tags Docs.plain = []) as H
    by (repeat split).
  split; [apply H|]. split; [apply H|].
  exact (proj2 (main_content_absent_iff Docs.plain) H).
Defined.

Section MoreSchemaFacts.

Implicit Types (els : list (string * ElementInfo)).

Lemma length_take (n : nat) (s : string) : (String.length (PyStr.take n s) <= n)%nat.
Proof.
  revert s. induction n as [|n IH]; intros s; [cbn; lia|].
  destruct s as [|c s]; cbn; [lia|]. specialize (IH s). lia.
Qed.

Lemma assoc_none_keys {A} (k : string) (l : list (string * A)) :
  assoc k l = None -> k ∉ List.map fst l.
Proof. apply (lookup_none_keys (V:=A)). Qed.

Lemma assoc_some_keys {A} (k : string) (l : list (string * A)) (v : A) :
  assoc k l = Some v -> k ∈ List.map fst l.
Proof.
  induction l as [|[k' v'] l IH]; [discriminate|]. cbn.
  destruct (String.eqb_spec k' k) as [->|Hne]; intros H.
  - apply elem_of_cons. by left.
  - apply elem_of_cons. right. by apply IH.
Qed.

Lemma incr_count_keys (c : string) els :
  List.map fst (incr_count c els) = List.map fst els.
Proof.
  induction els as [|[k info] els IH]; [reflexivity|]. cbn [incr_count].
  destruct (String.eqb k c); cbn; [reflexivity | by rewrite IH].
Qed.

Lemma incr_count_good (c : string) els :
  Forall good_info els -> Forall good_info (incr_count c els).
Proof.
  induction 1 as [|[k info] els Hk Hels IH]; [constructor|]. cbn [incr_count].
  destruct (String.eqb k c); constructor; auto.
  destruct Hk as [Hc Hs]. split; cbn in *; [lia | exact Hs].
Qed.

Lemma incr_count_sum (c : string) els (info : ElementInfo) :
  assoc c els = Some info -> sum_counts (incr_count c els) = sum_counts els + 1.
Proof.
  induction els as [|[k i] els IH]; [discriminate|]. cbn [assoc incr_count].
  destruct (String.eqb k c); intros H; cbn [sum_counts fold_right snd el_count].
  - lia.
  - fold (sum_counts (incr_count c els)). fold (sum_counts els). rewrite (IH H). lia.
Qed.

Lemma sum_counts_snoc els (kv : string * ElementInfo) :
  sum_counts (els ++ [kv]) = sum_counts els + el_count (snd kv).
Proof.
  induction els as [|x els IH]; cbn [app sum_counts fold_right]; [lia|].
  fold (sum_counts (els ++ [kv])). fold (sum_counts els). rewrite IH. lia.
Qed.

(** One step of the first loop of [_generate_page_schema]. *)
Lemma schema_element_step_inv els (element : node) els' :
  schema_element_step els element = Ok els' ->
  NoDup (List.map fst els) -> Forall good_info els ->
  exists c,
    first_class element = Ok c /\
    NoDup (List.map fst els') /\ Forall good_info els' /\
    sum_counts els' = sum_counts els + 1 /\
    (forall k, k ∈ List.map fst els' <-> k ∈ List.map fst els \/ k = c).
Proof.
  unfold schema_element_step. intros H Hnd Hgood.
  destruct (first_class element) as [c|e]; cbn [rbind] in H; [|discriminate].
  exists c. split; [reflexivity|].
  destruct (assoc c els) as [info|] eqn:E;
    match type of H with Ok ?x = _ => assert (x = els') as <- by congruence end; clear H.
  - rewrite incr_count_keys. split; [exact Hnd|]. split; [by apply incr_count_good|].
    split; [by eapply incr_count_sum|].
    intros k. split; [by left|]. intros [Hk| ->]; [exact Hk | by eapply assoc_some_keys].
  - rewrite map_app. cbn [List.map fst]. split; [|split; [|split]].
    + apply NoDup_app. split; [exact Hnd|]. split; [|apply NoDup_singleton].
      intros k Hk Hk'. apply list_elem_of_singleton in Hk' as ->.
      by apply (assoc_none_keys _ _ E).
    + apply Forall_app. split; [exact Hgood|]. constructor; [|constructor].
      split; cbn [snd el_count el_sample]; [lia | apply length_take].
    + rewrite sum_counts_snoc. reflexivity.
    + intros k. rewrite elem_of_app, list_elem_of_singleton. tauto.
Qed.

Lemma schema_elements_inv (l : list node) :
  forall els els',
    schema_elements els l = Ok els' ->
    NoDup (List.map fst els) -> Forall good_info els ->
    NoDup (List.map fst els') /\ Forall good_info els' /\
    sum_counts els' = sum_counts els + Z.of_nat (length l) /\
    (forall k, k ∈ List.map fst els' <->
               k ∈ List.map fst els \/ exists d, In d l /\ first_class d = Ok k).
Proof.
  induction l as [|d l IH]; intros els els' H Hnd Hgood.
  - injection H as <-. split; [exact Hnd|]. split; [exact Hgood|]. split; [cbn; lia|].
    intros k. split; [by left|]. intros [Hk|(d & [] & _)]. exact Hk.
  - cbn [schema_elements] in H.
    destruct (schema_element_step els d) as [els1|e] eqn:E; cbn [rbind] in H; [|discriminate].
    destruct (schema_element_step_inv els d els1 E Hnd Hgood)
      as (c & Hc & Hnd1 & Hgood1 & Hsum1 & Hkeys1).
    destruct (IH els1 els' H Hnd1 Hgood1) as (Hnd' & Hgood' & Hsum' & Hkeys').
    split; [exact Hnd'|]. split; [exact Hgood'|]. split.
    + rewrite Hsum', Hsum1. cbn [length]. lia.
    + intros k. rewrite Hkeys', Hkeys1. split.
      * intros [[Hk| ->]|(d' & Hd' & Hk)]; [by left | right | right].
        -- exists d. split; [by left | exact Hc].
        -- exists d'. split; [by right | exact Hk].
      * intros [Hk|(d' & [<-|Hd'] & Hk)]; [by left; left | left; right | right].
        -- congruence.
        -- by exists d'.
Qed.

Lemma schema_elements_of (soup : node) (sch : PageSchema) :
  _generate_page_schema soup = Ok sch ->
  schema_elements [] (Soup.find_all_classed soup) = Ok (elements sch) /\
  lists sch = List.map schema_list (Soup.find_all_in ["ul"; "ol"] soup).
Proof.
  unfold _generate_page_schema.
  destruct (schema_elements _ _); cbn; [by intros [= <-] | discriminate].
Qed.

(** The error of the first loop is the error of [element.get('class')[0]]
    on one of the elements. *)
Lemma schema_elements_err (l : list node) :
  forall els e,
    schema_elements els l = Err e -> exists d, In d l /\ first_class d = Err e.
Proof.
  induction l as [|d l IH]; intros els e H; [discriminate|].
  cbn [schema_elements] in H. unfold schema_element_step in H.
  destruct (first_class d) as [c|e'] eqn:E; cbn [rbind] in H.
  - destruct (assoc c els); cbn [rbind] in H;
      destruct (IH _ _ H) as (d' & Hd' & He); exists d'; split; auto; by right.
  - injection H as <-. exists d. split; [by left | exact E].
Qed.

Lemma schema_elements_ok_inv (l : list node) :
  forall els els',
    schema_elements els l = Ok els' -> forall d, In d l -> is_Ok (first_class d) = true.
Proof.
  induction l as [|d l IH]; intros els els' H d' Hd'; [destruct Hd'|].
  cbn [schema_elements] in H. unfold schema_element_step in H.
  destruct (first_class d) as [c|e'] eqn:E; cbn [rbind] in H; [|discriminate].
  destruct Hd' as [<-|Hd']; [by rewrite E|].
  destruct (assoc c els); cbn [rbind] in H; eapply IH; eauto.
Qed.

Lemma first_class_err_classed (d : node) (e : exn) :
  Soup.has_class_attr d = true -> first_class d = Err e ->
  e = IndexError /\
  (Soup.get d "class" = Some (AList []) \/ Soup.get d "class" = Some (AStr "")).
Proof.
  unfold Soup.has_class_attr, first_class.
  destruct (Soup.get d "class") as [[[|c s]|[|c l]]|]; intros Hc H;
    try discriminate; injection H as <-; auto.
Qed.

End MoreSchemaFacts.

(** X8.  In the [elements] of a schema the class names are distinct, every
    count is at least 1, every sample has at most 100 characters, the
    counts add up to the number of elements that carry a [class]
    attribute, and the class names are exactly the first class tokens of
    these elements. *)
Theorem schema_elements_counts (soup : node) (sch : PageSchema) :
  _generate_page_schema soup = Ok sch ->
  NoDup (List.map fst (elements sch)) /\
  Forall (fun kv => 1 <= el_count (snd kv) /\
                    (String.length (el_sample (snd kv)) <= 100)%nat) (elements sch) /\
  sum_counts (elements sch) = Z.of_nat (length (Soup.find_all_classed soup)) /\
  (forall k, k ∈ List.map fst (elements sch) <->
             exists d, In d (Soup.find_all_classed soup) /\ first_class d = Ok k).
Proof.
  intros H. destruct (schema_elements_of soup sch H) as [He _].
  destruct (schema_elements_inv _ [] (elements sch) He) as (Hnd & Hgood & Hsum & Hkeys);
    [constructor | constructor |].
  split; [exact Hnd|]. split; [exact Hgood|]. split; [exact Hsum|].
  intros k. rewrite Hkeys. split; [|by right]. intros [Hk|Hk]; [|exact Hk].
  cbn in Hk. by apply elem_of_nil in Hk.
Qed.

Lemma schema_elements_counts_witness :
  exists sch,
    _generate_page_schema Docs.classed = Ok sch /\
    sum_counts (elements sch) = 3 /\
    NoDup (List.map fst (elements sch)) /\
    Forall (fun kv => 1 <= el_count (snd kv) /\
                      (String.length (el_sample (snd kv)) <= 100)%nat) (elements sch) /\
    sum_counts (elements sch) = Z.of_nat (length (Soup.find_all_classed Docs.classed)) /\
    (forall k, k ∈ List.map fst (elements sch) <->
               exists d, In d (Soup.find_all_classed Docs.classed) /\ first_class d = Ok k).
Proof.
  eexists. split; [reflexivity|]. split; [reflexivity|].
  apply (schema_elements_counts Docs.classed). reflexivity.
Defined.

(** X9.  [_generate_page_schema], and with it the whole analysis of the
    page, fails exactly when some element has a [class] attribute with no
    token; the exception is [IndexError], whatever lists and tables the
    document has.  Otherwise both return. *)
Theorem schema_fails_on_empty_class (soup : node) :
  match _generate_page_schema soup with
  | Ok _ =>
      is_Ok (page_structure soup) = true /\
      forall d, In d (Soup.find_all_classed soup) -> is_Ok (first_class d) = true
  | Err e =>
      e = IndexError /\ page_structure soup = Err IndexError /\
      exists d, In d (Soup.find_all_classed soup) /\
                (Soup.get d "class" = Some (AList []) \/ Soup.get d "class" = Some (AStr ""))
  end.
Proof.
  unfold page_structure.
  destruct (_generate_page_schema soup) as [sch|e] eqn:E; cbn [rbind].
  - split; [reflexivity|]. destruct (schema_elements_of soup sch E) as [He _].
    by eapply schema_elements_ok_inv.
  - unfold _generate_page_schema in E.
    destruct (schema_elements [] (Soup.find_all_classed soup)) as [els|e'] eqn:Ee;
      cbn [rbind] in E; [discriminate|]. injection E as <-.
    destruct (schema_elements_err _ _ _ Ee) as (d & Hd & Hfc).
    assert (Soup.has_class_attr d = true) as Hc.
    { unfold Soup.find_all_classed in Hd. apply find_all_by_In in Hd. tauto. }
    destruct (first_class_err_classed d e' Hc Hfc) as [-> Hget].
    split; [reflexivity|]. split; [reflexivity|]. by exists d.
Qed.

(** X10.  Each entry of [lists] describes one [ul] or [ol] element, in
    document order: its type is the name of the element, its item count
    is the number of [li] elements below it (nested lists included), and
    its sample is absent exactly when the count is 0. *)
Theorem schema_lists_entries (soup : node) (sch : PageSchema) :
  _generate_page_schema soup = Ok sch ->
  Forall2
    (fun ul entry =>
       Soup.name ul = Some (li_type entry) /\
       (li_type entry = "ul" \/ li_type entry = "ol") /\
       li_items_count entry = Z.of_nat (length (Soup.find_all "li" ul)) /\
       (li_sample entry = None <-> li_items_count entry = 0))
    (Soup.find_all_in ["ul"; "ol"] soup) (lists sch).
Proof.
  intros H. destruct (schema_elements_of soup sch H) as [_ ->].
  apply Forall2_map_In. intros ul Hul.
  unfold Soup.find_all_in in Hul. apply find_all_by_In in Hul as (_ & _ & Hname).
  unfold Soup.has_name_in in Hname. cbn [existsb] in Hname. rewrite orb_false_r in Hname.
  assert (Soup.name ul = Some "ul" \/ Soup.name ul = Some "ol") as Hn.
  { apply orb_true_iff in Hname as [Hn|Hn]; apply has_name_name in Hn; auto. }
  unfold schema_list. cbn [li_type li_items_count li_sample].
  split; [by destruct Hn as [-> | ->]|]. split; [by destruct Hn as [-> | ->]; auto|].
  split; [reflexivity|]. unfold Soup.find, Soup.find_by, Soup.find_all.
  destruct (Soup.find_all_by (Soup.has_name "li") ul) as [|li lis]; cbn; [done|].
  split; [discriminate | lia].
Qed.

Lemma schema_lists_entries_witness :
  exists sch,
    _generate_page_schema MoreDocs.nested_lists = Ok sch /\
    List.map li_items_count (lists sch) = [2; 0] /\
    List.map li_sample (lists sch) = [Some "a"; None] /\
    Forall2
      (fun ul entry =>
         Soup.name ul = Some (li_type entry) /\
         (li_type entry = "ul" \/ li_type entry = "ol") /\
         li_items_count entry = Z.of_nat (length (Soup.find_all "li" ul)) /\
         (li_sample entry = None <-> li_items_count entry = 0))
      (Soup.find_all_in ["ul"; "ol"] MoreDocs.nested_lists) (lists sch).
Proof.
  eexists. split; [reflexivity|]. split; [reflexivity|]. split; [reflexivity|].
  apply (schema_lists_entries MoreDocs.nested_lists). reflexivity.
Defined.

(** X11.  Each entry of [tables] has one header per [th] element of its
    table, and a row count of at least -1; the count is negative exactly
    when the table has header cells and no row. *)
Theorem schema_tables_entries (soup : node) (sch : PageSchema) :
  _generate_page_schema soup = Ok sch ->
  Forall2
    (fun table entry =>
       length (tb_headers entry) = length (Soup.find_all "th" table) /\
       -1 <= tb_rows_count entry /\
       (tb_rows_count entry < 0 <->
        Soup.find_all "th" table <> [] /\ Soup.find_all "tr" table = []))
    (Soup.find_all "table" soup) (tables sch).
Proof.
  intros H. rewrite (schema_tables soup sch H).
  apply Forall2_map_In. intros table _. unfold schema_table. cbn [tb_headers tb_rows_count].
  split; [by rewrite length_map|].
  destruct (Soup.find_all "th" table) as [|th ths]; cbn [List.map].
  - split; [lia|]. split; [lia | by intros [? _]].
  - destruct (Soup.find_all "tr" table) as [|tr trs]; cbn [length].
    + split; [lia|]. split; [done | lia].
    + split; [lia|]. split; [lia | by intros [_ ?]].
Qed.

Lemma schema_tables_entries_witness :
  exists sch,
    _generate_page_schema MoreDocs.header_only_table = Ok sch /\
    List.map tb_rows_count (tables sch) = [-1] /\
    Forall2
      (fun table entry =>
         length (tb_headers entry) = length (Soup.find_all "th" table) /\
         -1 <= tb_rows_count entry /\
         (tb_rows_count entry < 0 <->
          Soup.find_all "th" table <> [] /\ Soup.find_all "tr" table = []))
      (Soup.find_all "table" MoreDocs.header_only_table) (tables sch).
Proof.
  eexists. split; [reflexivity|]. split; [reflexivity|].
  apply (schema_tables_entries MoreDocs.header_only_table). reflexivity.
Defined.

(* ===================================================================== *)
(** ** Further properties: the cache *)
(* ===================================================================== *)

Section MoreLruFacts.

Context {V : Type}.
Implicit Types (c : list (string * V)) (k url u : string).

Lemma keys_remove_intro k u c :
  k ∈ lru_keys c -> k <> u -> k ∈ lru_keys (Lru.remove u c).
Proof.
  induction c as [|[k0 v] c IH]; intros H Hne; [by apply elem_of_nil in H|].
  cbn in H. apply elem_of_cons in H as [->|H].
  - rewrite remove_cons_ne by done. cbn. apply elem_of_cons. by left.
  - destruct (String.eqb_spec k0 u) as [->|Hne0].
    + rewrite remove_cons_eq. by apply IH.
    + rewrite remove_cons_ne by done. cbn. apply elem_of_cons. right. by apply IH.
Qed.

Lemma remove_length k (v : V) c :
  Lru.lookup k c = Some v -> (S (length (Lru.remove k c)) <= length c)%nat.
Proof.
  induction c as [|[k0 v0] c IH]; [discriminate|].
  destruct (String.eqb_spec k0 k) as [->|Hne].
  - intros _. rewrite remove_cons_eq. cbn [length].
    assert (length (Lru.remove k c) <= length c)%nat; [|lia].
    unfold Lru.remove. apply List.filter_length_le.
  - rewrite lookup_cons_ne, remove_cons_ne by done. intros H. cbn [length].
    specialize (IH H). lia.
Qed.

Lemma keys_removelast c : lru_keys (removelast c) = removelast (lru_keys c).
Proof.
  unfold lru_keys. induction c as [|x c IH]; [reflexivity|].
  destruct c as [|y c]; [reflexivity|].
  change (fst x :: List.map fst (removelast (y :: c))
          = fst x :: removelast (List.map fst (y :: c))).
  f_equal. exact IH.
Qed.

Lemma removelast_elem {A} (l : list A) (x : A) : x ∈ removelast l -> x ∈ l.
Proof.
  induction l as [|a [|b l] IH]; intros H; [done | by apply elem_of_nil in H |].
  change (removelast (a :: b :: l)) with (a :: removelast (b :: l)) in H.
  apply elem_of_cons in H as [->|H]; apply elem_of_cons; [by left | right; by apply IH].
Qed.

Lemma removelast_nodup {A} (l : list A) : NoDup l -> NoDup (removelast l).
Proof.
  induction l as [|a [|b l] IH]; intros H; [done | constructor |].
  change (removelast (a :: b :: l)) with (a :: removelast (b :: l)).
  apply NoDup_cons in H as [Ha Hl]. apply NoDup_cons. split; [|by apply IH].
  intros Hin. apply Ha. by apply removelast_elem.
Qed.

Lemma removelast_length {A} (l : list A) : l <> [] -> S (length (removelast l)) = length l.
Proof.
  induction l as [|a [|b l] IH]; intros H; [done | reflexivity |].
  change (removelast (a :: b :: l)) with (a :: removelast (b :: l)).
  cbn [length]. rewrite IH by discriminate. reflexivity.
Qed.

Lemma lru_ok_touch k (v : V) (v' : V) c :
  lru_ok c -> Lru.lookup k c = Some v' -> lru_ok (Lru.touch k v c).
Proof.
  intros [Hnd Hlen] Hhit. unfold Lru.touch. split.
  - cbn. apply NoDup_cons. split; [|by apply nodup_keys_remove].
    intros Hin. by apply keys_remove in Hin as [_ ?].
  - cbn [length]. pose proof (remove_length k v' c Hhit). lia.
Qed.

Lemma lru_ok_store k (v : V) c :
  lru_ok c -> Lru.lookup k c = None -> lru_ok (Lru.store k v c).
Proof.
  intros [Hnd Hlen] Hmiss. apply lookup_none_keys in Hmiss.
  unfold Lru.store. destruct (Nat.leb_spec Lru.maxsize (length c)) as [Hfull|Hroom]; split.
  - change (NoDup (k :: lru_keys (removelast c))).
    apply NoDup_cons. rewrite keys_removelast. split; [|by apply removelast_nodup].
    intros Hin. apply Hmiss. by apply removelast_elem.
  - cbn [length]. rewrite removelast_length; [exact Hlen|].
    intros ->. unfold Lru.maxsize in Hfull. cbn in Hfull. lia.
  - cbn. apply NoDup_cons. by split.
  - cbn [length]. lia.
Qed.

Lemma before_cons_ne url k (v : V) c :
  k <> url -> before url ((k, v) :: c) = (k, v) :: before url c.
Proof. intros H. cbn. by destruct (String.eqb_spec k url). Qed.

Lemma before_remove url u c :
  u <> url -> before url (Lru.remove u c) = Lru.remove u (before url c).
Proof.
  intros Hne. induction c as [|[k v] c IH]; [reflexivity|].
  destruct (String.eqb_spec k u) as [->|Hku].
  - rewrite remove_cons_eq, before_cons_ne, remove_cons_eq by done. exact IH.
  - rewrite remove_cons_ne by done. cbn [before].
    destruct (String.eqb k url); [reflexivity|]. rewrite remove_cons_ne by done.
    by rewrite IH.
Qed.

Lemma before_removelast url c :
  url ∈ lru_keys (removelast c) -> before url (removelast c) = before url c.
Proof.
  induction c as [|[k v] [|y c] IH]; intros H; [done | by apply elem_of_nil in H |].
  change (removelast ((k, v) :: y :: c)) with ((k, v) :: removelast (y :: c)) in *.
  cbn [before]. destruct (String.eqb_spec k url) as [->|Hne]; [reflexivity|].
  cbn in H. apply elem_of_cons in H as [->|H]; [done|]. by rewrite IH.
Qed.

Lemma keys_before url c k : k ∈ lru_keys (before url c) -> k ∈ lru_keys c.
Proof.
  induction c as [|[k0 v] c IH]; intros H; [done|]. cbn [before] in H.
  destruct (String.eqb k0 url); [by apply elem_of_nil in H|].
  cbn in *. apply elem_of_cons in H as [->|H]; apply elem_of_cons; [by left | right; by apply IH].
Qed.

Lemma before_nodup url c : NoDup (lru_keys c) -> NoDup (lru_keys (before url c)).
Proof.
  induction c as [|[k0 v] c IH]; intros H; [done|]. cbn [before].
  destruct (String.eqb k0 url); [constructor|].
  cbn in *. apply NoDup_cons in H as [Hk Hc]. apply NoDup_cons. split; [|by apply IH].
  intros Hin. apply Hk. by eapply keys_before.
Qed.

Lemma before_length url c :
  url ∈ lru_keys c -> (S (length (before url c)) <= length c)%nat.
Proof.
  induction c as [|[k0 v] c IH]; intros H; [by apply elem_of_nil in H|]. cbn [before].
  destruct (String.eqb_spec k0 url) as [->|Hne]; cbn [length]; [lia|].
  cbn in H. apply elem_of_cons in H as [->|H]; [done|]. specialize (IH H). lia.
Qed.

Lemma behind_all_touch url (seen : list string) c u (v : V) :
  u <> url -> Lru.lookup u c = Some v ->
  behind_all url seen c -> behind_all url (u :: seen) (Lru.touch u v c).
Proof.
  intros Hne Hhit [Hok Hinv]. split; [by eapply lru_ok_touch|].
  unfold Lru.touch. intros Hurl d Hd. rewrite before_cons_ne, before_remove by done.
  cbn in Hurl. apply elem_of_cons in Hurl as [->|Hurl]; [done|].
  apply keys_remove in Hurl as [Hurl _].
  cbn. apply elem_of_cons. destruct (decide (d = u)) as [->|Hdu]; [by left | right].
  apply elem_of_cons in Hd as [->|Hd]; [done|].
  apply keys_remove_intro; [by apply Hinv | done].
Qed.

Lemma behind_all_store url (seen : list string) c u (v : V) :
  u <> url -> Lru.lookup u c = None ->
  behind_all url seen c -> behind_all url (u :: seen) (Lru.store u v c).
Proof.
  intros Hne Hmiss [Hok Hinv]. split; [by apply lru_ok_store|].
  unfold Lru.store. intros Hurl d Hd.
  destruct (Nat.leb Lru.maxsize (length c)).
  - rewrite before_cons_ne by done.
    change (url ∈ u :: lru_keys (removelast c)) in Hurl.
    apply elem_of_cons in Hurl as [->|Hurl]; [done|].
    rewrite before_removelast by done.
    rewrite keys_removelast in Hurl. apply removelast_elem in Hurl.
    change (d ∈ u :: lru_keys (before url c)).
    apply elem_of_cons. apply elem_of_cons in Hd as [->|Hd]; [by left | right].
    by apply Hinv.
  - rewrite before_cons_ne by done.
    change (url ∈ u :: lru_keys c) in Hurl.
    apply elem_of_cons in Hurl as [->|Hurl]; [done|].
    change (d ∈ u :: lru_keys (before url c)).
    apply elem_of_cons. apply elem_of_cons in Hd as [->|Hd]; [by left | right].
    by apply Hinv.
Qed.

(** With [maxsize] distinct urls used after it, the entry is gone. *)
Lemma behind_all_evicted url (seen : list string) c :
  behind_all url seen c -> (Lru.maxsize <= length (remove_dups seen))%nat ->
  Lru.lookup url c = None.
Proof.
  intros [[Hnd Hlen] Hinv] Hmany.
  destruct (Lru.lookup url c) as [v|] eqn:E; [exfalso | reflexivity].
  assert (url ∈ lru_keys c) as Hurl by (by eapply assoc_some_keys).
  pose proof (before_length url c Hurl) as Hb.
  assert (length (remove_dups seen) <= length (lru_keys (before url c)))%nat as Hle.
  { apply submseteq_length, NoDup_submseteq; [apply NoDup_remove_dups|].
    intros d Hd. apply Hinv; [exact Hurl|]. by apply elem_of_remove_dups. }
  unfold lru_keys in Hle. rewrite length_map in Hle. lia.
Qed.

End MoreLruFacts.

Section MoreCacheFacts.

Context (W : World).

Lemma analyze_lru_ok (url : string) (st : state) :
  lru_ok (lru st) -> lru_ok (lru (snd (analyze_page_structure W url st))).
Proof.
  intros Hok.
  destruct (analyze_cases W url st) as [(v & Hv & ->)|[[Hv [e ->]]|[Hv [v ->]]]];
    cbn [snd lru set_lru log_fetch].
  - by eapply lru_ok_touch.
  - exact Hok.
  - by apply lru_ok_store.
Qed.

Lemma register_lru (url query : string) (selectors : json) (st : state) :
  lru (snd (register W url query selectors st)) = lru st.
Proof.
  pose proof (register_cases W url query selectors st) as H. cbn zeta in H.
  destruct (_generate_endpoint_id _ _ _); by rewrite H.
Qed.

Lemma generate_lru (url query : string) (st : state) :
  lru (snd (generate_api_endpoint W url query st))
  = lru (snd (analyze_page_structure W url st)).
Proof.
  rewrite generate_unfold.
  destruct (analyze_page_structure W url st) as [[structure|e] st1]; [|reflexivity].
  destruct (chat_completion W _ _) as [content|e]; [|reflexivity].
  destruct (json_loads W content) as [selectors|e]; [|reflexivity].
  by rewrite register_lru.
Qed.

Lemma execute_lru (endpoint_id : string) (st : state) :
  lru (snd (execute_scraping W endpoint_id st)) = lru st.
Proof.
  unfold execute_scraping, bind, resolve, lift.
  destruct (cached_schemas st !! endpoint_id); [|reflexivity]. cbn.
  by destruct (requests_get W _ _).
Qed.

Lemma handle_lru_ok (r : request) (st : state) :
  lru_ok (lru st) -> lru_ok (lru (snd (handle W r st))).
Proof.
  intros Hok. destruct r as [url query|endpoint_id]; cbn [handle].
  - destruct url as [url|]; [|exact Hok]. destruct query as [query|].
    2:{ unfold analyze_webpage. by rewrite orb_true_r. }
    rewrite analyze_webpage_unfold.
    destruct (String.eqb url "" || String.eqb query "")%bool; [exact Hok|].
    pose proof (generate_lru url query st) as Hg.
    destruct (generate_api_endpoint W url query st) as [[created|e] st1]; cbn [snd] in *.
    + pose proof (execute_lru (fst created) st1) as He.
      destruct (execute_scraping W _ st1) as [[results|e] st2]; cbn [snd] in *;
        rewrite He, Hg; by apply analyze_lru_ok.
    + rewrite Hg. by apply analyze_lru_ok.
  - unfold scrape_endpoint. pose proof (execute_lru endpoint_id st) as He.
    destruct (execute_scraping W endpoint_id st) as [[results|[]] st2]; cbn [snd] in *;
      by rewrite He.
Qed.

Lemma analyze_all_behind (url : string) (urls : list string) :
  forall seen st,
    behind_all url seen (lru st) ->
    analyze_all_ok W urls st = true ->
    (forall u, u ∈ urls -> u <> url) ->
    behind_all url (rev urls ++ seen) (lru (analyze_all W urls st)).
Proof.
  induction urls as [|u urls IH]; intros seen st Hinv Hok Hne; [exact Hinv|].
  cbn [analyze_all_ok] in Hok. apply andb_true_iff in Hok as [Hu Hok].
  cbn [analyze_all fold_left rev]. rewrite <- app_assoc. cbn [app].
  apply IH; [|exact Hok | intros u' Hu'; apply Hne; by apply elem_of_cons; right].
  assert (u <> url) as Hneu by (apply Hne; by apply elem_of_cons; left).
  destruct (analyze_cases W u st) as [(v & Hv & E)|[[Hv [e E]]|[Hv [v E]]]];
    rewrite E in Hu |- *; cbn [fst snd lru set_lru log_fetch is_Ok] in *.
  - by apply behind_all_touch.
  - discriminate.
  - by apply behind_all_store.
Qed.

End MoreCacheFacts.

(** X12.  A call of [analyze_page_structure] that raises caches nothing:
    the cache and the registry are as before, the fetch of the url is the
    only trace, and the next call on the same url fetches it again. *)
Theorem failed_analysis_not_cached (W : World) (url : string) (st st1 : state) (e : exn) :
  analyze_page_structure W url st = (Err e, st1) ->
  lru st1 = lru st /\
  cached_schemas st1 = cached_schemas st /\
  fetches st1 = url :: fetches st /\
  fetches (snd (analyze_page_structure W url st1)) = url :: url :: fetches st.
Proof.
  intros H.
  destruct (analyze_cases W url st) as [(v & Hv & E)|[[Hv [e' E]]|[Hv [v E]]]];
    rewrite E in H; try discriminate. injection H as <- <-.
  repeat split.
  destruct (analyze_cases W url (log_fetch url st)) as [(v & Hv' & E')|[[_ [e'' ->]]|[_ [v ->]]]];
    [unfold log_fetch in Hv'; cbn [lru] in Hv'; congruence | reflexivity | reflexivity].
Qed.

Lemma failed_analysis_not_cached_witness :
  let st1 := log_fetch "example.com" init_state in
  analyze_page_structure Demo.strict "example.com" init_state
    = (Err (ValueError "Invalid URL: No scheme supplied"), st1) /\
  lru st1 = lru init_state /\
  cached_schemas st1 = cached_schemas init_state /\
  fetches st1 = "example.com" :: fetches init_state /\
  fetches (snd (analyze_page_structure Demo.strict "example.com" st1))
    = "example.com" :: "example.com" :: fetches init_state.
Proof.
  intros st1. split; [reflexivity|].
  apply (failed_analysis_not_cached Demo.strict "example.com" init_state st1
           (ValueError "Invalid URL: No scheme supplied")).
  reflexivity.
Defined.

(** X13.  Whatever requests are served from the start, the cache of
    [analyze_page_structure] never holds more than 100 entries, and never
    two entries for one url. *)
Theorem cache_bounded (W : World) (rs : list request) :
  NoDup (lru_keys (lru (serve W rs init_state))) /\
  (length (lru (serve W rs init_state)) <= 100)%nat.
Proof.
  assert (forall st, lru_ok (lru st) -> lru_ok (lru (serve W rs st))) as H.
  { induction rs as [|r rs IH]; intros st Hok; [exact Hok|].
    cbn [serve]. apply IH. by apply handle_lru_ok. }
  apply H. split; [constructor | cbn; lia].
Qed.

(** X14.  The capacity is reached at 100: when a call on a url has
    returned and calls on 100 or more distinct other urls follow and all
    return, the entry of the url has been evicted, and the next call on it
    fetches the page again. *)
Theorem evicted_after_capacity (W : World) (url : string) (urls : list string)
    (st st1 : state) (s : PageStructure) :
  lru_ok (lru st) ->
  analyze_page_structure W url st = (Ok s, st1) ->
  forallb (fun u => negb (String.eqb u url)) urls = true ->
  analyze_all_ok W urls st1 = true ->
  (Lru.maxsize <= length (remove_dups urls))%nat ->
  let st2 := analyze_all W urls st1 in
  Lru.lookup url (lru st2) = None /\
  fetches (snd (analyze_page_structure W url st2)) = url :: fetches st2.
Proof.
  intros Hok Hfirst Hne Hall Hmany st2.
  assert (behind_all url [] (lru st1)) as Hinv.
  { split.
    - pose proof (analyze_lru_ok W url st Hok) as H. by rewrite Hfirst in H.
    - intros _ d Hd. by apply elem_of_nil in Hd. }
  assert (forall u, u ∈ urls -> u <> url) as Hne'.
  { intros u Hu ->. apply list_elem_of_In in Hu.
    pose proof (proj1 (forallb_forall _ _) Hne url Hu) as E. cbn beta in E.
    by rewrite String.eqb_refl in E. }
  pose proof (analyze_all_behind W url urls [] st1 Hinv Hall Hne') as Hend.
  fold st2 in Hend. rewrite app_nil_r in Hend.
  assert (Lru.lookup url (lru st2) = None) as Hmiss.
  { eapply behind_all_evicted; [exact Hend|].
    assert (length (remove_dups (rev urls)) = length (remove_dups urls)) as ->; [|exact Hmany].
    apply Permutation_length, NoDup_Permutation;
      [apply NoDup_remove_dups | apply NoDup_remove_dups |].
    intros x. rewrite !elem_of_remove_dups, !list_elem_of_In. symmetry. apply in_rev. }
  split; [exact Hmiss|].
  destruct (analyze_cases W url st2) as [(v & Hv & E)|[[_ [e ->]]|[_ [v ->]]]];
    [congruence | reflexivity | reflexivity].
Qed.

Lemma evicted_after_capacity_witness :
  let url := "http://a.com" in
  let urls := numbered_urls 100 in
  exists s st1,
    lru_ok (lru init_state) /\
    analyze_page_structure Demo.world url init_state = (Ok s, st1) /\
    forallb (fun u => negb (String.eqb u url)) urls = true /\
    analyze_all_ok Demo.world urls st1 = true /\
    (Lru.maxsize <= length (remove_dups urls))%nat /\
    let st2 := analyze_all Demo.world urls st1 in
    Lru.lookup url (lru st2) = None /\
    fetches (snd (analyze_page_structure Demo.world url st2)) = url :: fetches st2.
Proof.
  intros url urls.
  assert (lru_ok (lru init_state)) as H0 by (split; [constructor | cbn; lia]).
  eexists _, _. split; [exact H0|]. split; [reflexivity|].
  split; [vm_compute; reflexivity|]. split; [vm_compute; reflexivity|].
  split; [vm_compute; lia|].
  eapply (evicted_after_capacity Demo.world url urls init_state);
    [exact H0 | reflexivity | vm_compute; reflexivity | vm_compute; reflexivity
     | vm_compute; lia].
Defined.

(* ===================================================================== *)
(** ** Further properties: replay *)
(* ===================================================================== *)

Section MoreReplayFacts.

Context (W : World).

(** Replaying a registered endpoint changes the state by one fetch. *)
Lemma execute_registered (id : string) (st : state) (cfg : EndpointConfig) :
  cached_schemas st !! id = Some cfg ->
  snd (execute_scraping W id st) = log_fetch (cfg_url cfg) st /\
  fst (execute_scraping W id st) =
    rbind (requests_get W (length (fetches st)) (cfg_url cfg)) (fun text =>
      rbind (Py.iter (cfg_selectors cfg)) (scrape_selectors W (parse_html W text) [])).
Proof.
  intros H. unfold execute_scraping, bind, resolve, fetch, lift. rewrite H.
  by destruct (requests_get W _ _).
Qed.

Lemma scrape_element_acc (selector : json) (acc : list ResultEntry) (element : node) :
  scrape_element selector acc element =
    rbind (scrape_element selector [] element) (fun new => Ok (acc ++ new)%list).
Proof.
  unfold scrape_element.
  destruct (extract_value selector element) as [[v|]|e]; cbn [rbind];
    [| by rewrite app_nil_r | reflexivity].
  destruct (Py.truthy (Some v)); cbn [rbind]; [|by rewrite app_nil_r].
  by destruct (Py.getitem selector "description").
Qed.

Lemma scrape_elements_acc (selector : json) (els : list node) :
  forall acc,
    scrape_elements selector acc els =
      rbind (scrape_elements selector [] els) (fun new => Ok (acc ++ new)%list).
Proof.
  induction els as [|element els IH]; intros acc;
    [cbn [scrape_elements rbind]; by rewrite app_nil_r|].
  cbn [scrape_elements]. rewrite scrape_element_acc.
  destruct (scrape_element selector [] element) as [n1|e]; cbn [rbind]; [|reflexivity].
  rewrite (IH (acc ++ n1)%list), (IH n1).
  destruct (scrape_elements selector [] els) as [n2|e]; cbn [rbind]; [|reflexivity].
  by rewrite app_assoc.
Qed.

Lemma scrape_selectors_acc (soup : node) (sels : list json) :
  forall acc,
    scrape_selectors W soup acc sels =
      rbind (scrape_selectors W soup [] sels) (fun new => Ok (acc ++ new)%list).
Proof.
  induction sels as [|selector sels IH]; intros acc;
    [cbn [scrape_selectors rbind]; by rewrite app_nil_r|].
  cbn [scrape_selectors]. unfold scrape_selector.
  destruct (select_elements W soup selector) as [els|e]; cbn [rbind]; [|reflexivity].
  rewrite scrape_elements_acc.
  destruct (scrape_elements selector [] els) as [n1|e]; cbn [rbind]; [|reflexivity].
  rewrite (IH (acc ++ n1)%list), (IH n1).
  destruct (scrape_selectors W soup [] sels) as [n2|e]; cbn [rbind]; [|reflexivity].
  by rewrite app_assoc.
Qed.

Lemma scrape_selectors_app (soup : node) (sels1 sels2 : list json) :
  forall acc,
    scrape_selectors W soup acc (sels1 ++ sels2) =
      rbind (scrape_selectors W soup acc sels1) (fun r => scrape_selectors W soup r sels2).
Proof.
  induction sels1 as [|selector sels1 IH]; intros acc; [reflexivity|].
  cbn [app scrape_selectors].
  destruct (scrape_selector W soup acc selector) as [r|e]; cbn [rbind]; [apply IH | reflexivity].
Qed.

Lemma strings_are_text (soup t : node) : In t (Soup.strings soup) -> Soup.is_tag t = false.
Proof.
  unfold Soup.strings. rewrite filter_In. intros [_ H]. by apply negb_true_iff in H.
Qed.

End MoreReplayFacts.

Section StripFacts.

Lemma rstrip_empty (s : string) :
  PyStr.rstrip s = "" <-> PyStr.all_chars PyStr.is_space s = true.
Proof.
  induction s as [|c s IH]; [done|]. cbn [PyStr.rstrip PyStr.all_chars].
  destruct (PyStr.rstrip s) as [|c' r] eqn:E.
  - destruct (PyStr.is_space c); cbn [andb]; [|split; discriminate].
    split; [intros _; by apply IH | done].
  - split; [discriminate|]. intros [_ H]%andb_true_iff. apply IH in H. discriminate.
Qed.

Lemma lstrip_spaces (s : string) :
  PyStr.all_chars PyStr.is_space (PyStr.lstrip s) = PyStr.all_chars PyStr.is_space s.
Proof.
  induction s as [|c s IH]; [reflexivity|]. cbn [PyStr.lstrip].
  destruct (PyStr.is_space c) eqn:E; [|reflexivity].
  cbn [PyStr.all_chars]. by rewrite E, IH.
Qed.

(** [strip] leaves nothing exactly of the strings made of whitespace. *)
Lemma strip_empty (s : string) :
  PyStr.strip s = "" <-> PyStr.all_chars PyStr.is_space s = true.
Proof. unfold PyStr.strip. by rewrite rstrip_empty, lstrip_spaces. Qed.

End StripFacts.

(** X15.  Replaying a registered endpoint always fetches the url of its
    configuration, once, whether or not the structure of that url is in
    the cache; it leaves the cache, the registry and the count of
    inference calls as they were. *)
Theorem replay_fetches_once (W : World) (id : string) (st : state) (cfg : EndpointConfig) :
  cached_schemas st !! id = Some cfg ->
  let st' := snd (execute_scraping W id st) in
  fetches st' = cfg_url cfg :: fetches st /\
  lru st' = lru st /\
  cached_schemas st' = cached_schemas st /\
  completions st' = completions st.
Proof.
  intros H st'. subst st'. destruct (execute_registered W id st cfg H) as [-> _].
  by repeat split.
Qed.

Lemma replay_fetches_once_witness :
  let st := snd (analyze_page_structure Demo.world "http://a.com" 
                   (one_endpoint "e" "http://a.com" (JArr []))) in
  let st' := snd (execute_scraping Demo.world "e" st) in
  Lru.lookup "http://a.com" (lru st) <> None /\
  (exists cfg, cached_schemas st !! "e" = Some cfg /\
     fetches st' = cfg_url cfg :: fetches st /\
     lru st' = lru st /\
     cached_schemas st' = cached_schemas st /\
     completions st' = completions st) /\
  fetches st' = ["http://a.com"; "http://a.com"].
Proof.
  intros st st'. split; [discriminate|]. split; [|reflexivity].
  eexists. split; [reflexivity|].
  apply (replay_fetches_once Demo.world "e" st). reflexivity.
Defined.

(** X16.  Replay expects [selectors] to be an array.  With the page
    fetched, any other value makes it raise [TypeError], except the empty
    object and the empty string, for which it returns no result. *)
Theorem replay_needs_array (W : World) (id : string) (st : state)
    (cfg : EndpointConfig) (text : string) :
  cached_schemas st !! id = Some cfg ->
  requests_get W (length (fetches st)) (cfg_url cfg) = Ok text ->
  match cfg_selectors cfg with
  | JArr _ => True
  | JObj [] | JStr EmptyString => fst (execute_scraping W id st) = Ok []
  | _ => fst (execute_scraping W id st) = Err TypeError
  end.
Proof.
  intros H Hf. destruct (execute_registered W id st cfg H) as [_ ->]. rewrite Hf. cbn [rbind].
  destruct (cfg_selectors cfg) as [| | |[|c s]| |[|[k v] fields]]; reflexivity || exact I.
Qed.

Lemma replay_needs_array_witness :
  let st := one_endpoint "e" "http://a.com" Demo.payload in
  exists cfg,
    cached_schemas st !! "e" = Some cfg /\
    requests_get Demo.world (length (fetches st)) (cfg_url cfg) = Ok "<html>...</html>" /\
    cfg_selectors cfg = Demo.payload /\
    fst (execute_scraping Demo.world "e" st) = Err TypeError.
Proof.
  intros st. eexists. split; [reflexivity|]. split; [reflexivity|]. split; [reflexivity|].
  exact (replay_needs_array Demo.world "e" st _ "<html>...</html>" eq_refl eq_refl).
Defined.

(** X17.  The results of a list of selectors are the results of its
    selectors put one after the other, after what was collected before;
    the first selector that raises ends the replay with its error, and
    what was collected is lost. *)
Theorem results_concatenate (W : World) (soup : node) (sels1 sels2 : list json)
    (acc : list ResultEntry) :
  scrape_selectors W soup acc (sels1 ++ sels2) =
    match scrape_selectors W soup [] sels1 with
    | Ok r1 =>
        match scrape_selectors W soup [] sels2 with
        | Ok r2 => Ok (acc ++ r1 ++ r2)%list
        | Err e => Err e
        end
    | Err e => Err e
    end.
Proof.
  rewrite scrape_selectors_app, scrape_selectors_acc.
  destruct (scrape_selectors W soup [] sels1) as [r1|e]; cbn [rbind]; [|reflexivity].
  rewrite scrape_selectors_acc.
  destruct (scrape_selectors W soup [] sels2) as [r2|e]; cbn [rbind]; [|reflexivity].
  by rewrite app_assoc.
Qed.

(** X18.  For a selector that reads the text, a matched element adds an
    entry exactly when its text has a character that is not whitespace;
    the entry holds the description of the selector and the text without
    its leading and trailing whitespace. *)
Theorem text_entry_unless_blank (selector attribute description : json)
    (acc : list ResultEntry) (element : node) :
  Py.getitem selector "attribute" = Ok attribute ->
  Py.eq_str attribute "text" = true ->
  Py.getitem selector "description" = Ok description ->
  scrape_element selector acc element =
    Ok (if PyStr.all_chars PyStr.is_space (Soup.get_text element)
        then acc
        else (acc ++ [{| r_type := description;
                         r_value := AStr (PyStr.strip (Soup.get_text element)) |}])%list).
Proof.
  intros Ha Ht Hd. unfold scrape_element, extract_value. rewrite Ha. cbn [rbind].
  rewrite Ht. cbn [rbind Py.truthy].
  destruct (PyStr.all_chars PyStr.is_space (Soup.get_text element)) eqn:E.
  - apply strip_empty in E. by rewrite E.
  - destruct (String.eqb_spec (PyStr.strip (Soup.get_text element)) "") as [Hs|Hs].
    + apply strip_empty in Hs. congruence.
    + cbn [negb]. by rewrite Hd.
Qed.

Lemma text_entry_unless_blank_witness :
  let selector := text_selector "p" "paragraph" in
  let blank := Tag "p" [] [Text "  "; Tag "b" [] [Text " "]] in
  let full := Tag "p" [] [Text " a "; Tag "b" [] [Text "b "]] in
  Py.getitem selector "attribute" = Ok (JStr "text") /\
  Py.eq_str (JStr "text") "text" = true /\
  Py.getitem selector "description" = Ok (JStr "paragraph") /\
  scrape_element selector [] blank = Ok [] /\
  scrape_element selector [] full
    = Ok [{| r_type := JStr "paragraph"; r_value := AStr "a b" |}] /\
  scrape_element selector [] full =
    Ok (if PyStr.all_chars PyStr.is_space (Soup.get_text full)
        then []
        else ([] ++ [{| r_type := JStr "paragraph";
                        r_value := AStr (PyStr.strip (Soup.get_text full)) |}])%list).
Proof.
  intros selector blank full. repeat (split; [reflexivity|]).
  apply (text_entry_unless_blank selector (JStr "text") (JStr "paragraph") [] full);
    reflexivity.
Defined.

(** X19.  A selector without an [attribute] key is found out only when it
    matches: with no matched element the results are unchanged and nothing
    is raised; with a matched element the replay raises
    [KeyError('attribute')]. *)
Theorem missing_attribute_key (W : World) (soup : node) (selector : json)
    (acc : list ResultEntry) (els : list node) :
  Py.getitem selector "attribute" = Err (KeyError "attribute") ->
  select_elements W soup selector = Ok els ->
  scrape_selector W soup acc selector =
    match els with
    | [] => Ok acc
    | _ :: _ => Err (KeyError "attribute")
    end.
Proof.
  intros Ha Hs. unfold scrape_selector. rewrite Hs. cbn [rbind].
  destruct els as [|element els]; [reflexivity|].
  cbn [scrape_elements]. unfold scrape_element, extract_value. by rewrite Ha.
Qed.

Lemma missing_attribute_key_witness :
  let no_attr tag := JObj [("type", JStr "css"); ("selector", JStr tag)] in
  Py.getitem (no_attr "h1") "attribute" = Err (KeyError "attribute") /\
  select_elements Demo.world Demo.page (no_attr "h1") = Ok [Tag "h1" [] [Text "Hi"]] /\
  select_elements Demo.world Demo.page (no_attr "h2") = Ok [] /\
  scrape_selector Demo.world Demo.page [] (no_attr "h1") = Err (KeyError "attribute") /\
  scrape_selector Demo.world Demo.page [] (no_attr "h2") = Ok [].
Proof.
  intros no_attr. split; [reflexivity|]. split; [reflexivity|]. split; [reflexivity|].
  split.
  - exact (missing_attribute_key Demo.world Demo.page (no_attr "h1") [] _ eq_refl eq_refl).
  - exact (missing_attribute_key Demo.world Demo.page (no_attr "h2") [] _ eq_refl eq_refl).
Defined.

(** X20.  A selector that is not of type [css] matches text nodes, and a
    text node has no attributes to read: when such a selector asks for
    anything but the text and its pattern matches some text node, the
    replay raises [AttributeError]. *)
Theorem text_match_attribute_raises (W : World) (soup : node) (selector ty attribute : json)
    (pattern : string) (matches : string -> bool) (acc : list ResultEntry) :
  Py.getitem selector "type" = Ok ty ->
  Py.eq_str ty "css" = false ->
  Py.getitem selector "selector" = Ok (JStr pattern) ->
  re_compile W pattern = Ok matches ->
  Py.getitem selector "attribute" = Ok attribute ->
  Py.eq_str attribute "text" = false ->
  List.filter (fun t => matches (Soup.get_text t)) (Soup.strings soup) <> [] ->
  scrape_selector W soup acc selector = Err AttributeError.
Proof.
  intros Hty Hcss Hsel Hre Hattr Htext Hmatch.
  unfold scrape_selector, select_elements. rewrite Hty. cbn [rbind]. rewrite Hcss, Hsel.
  cbn [rbind Py.as_str]. rewrite Hre. cbn [rbind].
  destruct (List.filter _ (Soup.strings soup)) as [|t ts] eqn:E; [done|].
  assert (Soup.is_tag t = false) as Ht.
  { apply (strings_are_text soup).
    assert (In t (List.filter (fun t => matches (Soup.get_text t)) (Soup.strings soup))) as Hin
      by (rewrite E; by left).
    apply filter_In in Hin. tauto. }
  cbn [scrape_elements]. unfold scrape_element, extract_value. rewrite Hattr. cbn [rbind].
  rewrite Htext. destruct t as [s|nm attrs cs]; [reflexivity | discriminate].
Qed.

Lemma text_match_attribute_raises_witness :
  let selector := JObj [("type", JStr "xpath"); ("selector", JStr "Hi");
                        ("attribute", JStr "href"); ("description", JStr "d")] in
  exists matches,
    Py.getitem selector "type" = Ok (JStr "xpath") /\
    Py.eq_str (JStr "xpath") "css" = false /\
    Py.getitem selector "selector" = Ok (JStr "Hi") /\
    re_compile Demo.world "Hi" = Ok matches /\
    Py.getitem selector "attribute" = Ok (JStr "href") /\
    Py.eq_str (JStr "href") "text" = false /\
    List.filter (fun t => matches (Soup.get_text t)) (Soup.strings Demo.page) <> [] /\
    scrape_selector Demo.world Demo.page [] selector = Err AttributeError.
Proof.
  intros selector. eexists. repeat (split; [reflexivity|]). split; [discriminate|].
  eapply (text_match_attribute_raises Demo.world Demo.page selector (JStr "xpath") (JStr "href")
            "Hi"); try reflexivity. discriminate.
Defined.

(* ===================================================================== *)
(** ** Further properties: the routes *)
(* ===================================================================== *)

Section MoreRouteFacts.

Context (W : World).

Lemma analyze_effects (url : string) (st : state) :
  let st1 := snd (analyze_page_structure W url st) in
  completions st1 = completions st /\
  (fetches st1 = fetches st \/ fetches st1 = url :: fetches st).
Proof.
  destruct (analyze_cases W url st) as [(v & _ & ->)|[[_ [e ->]]|[_ [v ->]]]]; cbn; auto.
Qed.

Lemma register_completions (url query : string) (selectors : json) (st : state) :
  completions (snd (register W url query selectors st)) = completions st.
Proof.
  pose proof (register_cases W url query selectors st) as H. cbn zeta in H.
  destruct (_generate_endpoint_id _ _ _); by rewrite H.
Qed.

(** What [generate_api_endpoint] does outside the registry: the fetches of
    the analysis, and at most one inference call, made whenever it
    returns. *)
Lemma generate_effects (url query : string) (st : state) :
  let r := generate_api_endpoint W url query st in
  fetches (snd r) = fetches (snd (analyze_page_structure W url st)) /\
  (completions (snd r) = completions st \/ completions (snd r) = S (completions st)) /\
  (is_Ok (fst r) = true -> completions (snd r) = S (completions st)).
Proof.
  cbn zeta. rewrite generate_unfold.
  destruct (analyze_effects url st) as [Hc _].
  destruct (analyze_page_structure W url st) as [[structure|e] st1]; cbn [fst snd] in *;
    [|split; [reflexivity|]; split; [by left | discriminate]].
  destruct (chat_completion W _ _) as [content|e]; cbn [fst snd];
    [|split; [reflexivity|]; split; [right; cbn; by rewrite Hc | discriminate]].
  destruct (json_loads W content) as [selectors|e]; cbn [fst snd];
    [|split; [reflexivity|]; split; [right; cbn; by rewrite Hc | discriminate]].
  rewrite register_fetches, register_completions. cbn. rewrite Hc. auto.
Qed.

(** A returned endpoint is registered, with the url it was asked for. *)
Lemma generate_ok_registered (url query : string) (st st1 : state)
    (id : string) (cfg : EndpointConfig) :
  generate_api_endpoint W url query st = (Ok (id, cfg), st1) ->
  _generate_endpoint_id (py_hash W) url query = Ok id /\
  cached_schemas st1 !! id = Some cfg /\ cfg_url cfg = url /\ cfg_query cfg = query.
Proof.
  intros H.
  destruct (generate_cases W url query st)
    as [(e & He & _)|(id' & cfg' & c & He & Hid & _ & Hu & Hq & Hs)];
    rewrite H in *; cbn [fst snd] in *; [discriminate|].
  injection He as <- <-. rewrite Hs, lookup_insert_eq. auto.
Qed.

End MoreRouteFacts.

(** X21.  [GET /api/scrape/<id>] answers 404 for every [ValueError], not
    only for an unknown id: when the id is registered and fetching its url
    raises a [ValueError], the answer is 404 with the message of that
    error. *)
Theorem scrape_endpoint_fetch_value_error (W : World) (id : string) (st : state)
    (cfg : EndpointConfig) (msg : string) :
  cached_schemas st !! id = Some cfg ->
  requests_get W (length (fetches st)) (cfg_url cfg) = Err (ValueError msg) ->
  scrape_endpoint W id st
  = (Ok {| status := 404; payload := ErrorBody msg |}, log_fetch (cfg_url cfg) st).
Proof.
  intros H Hf. unfold scrape_endpoint.
  destruct (execute_registered W id st cfg H) as [Hs Hr]. rewrite Hf in Hr. cbn [rbind] in Hr.
  destruct (execute_scraping W id st) as [r st']. cbn [fst snd] in *. by subst.
Qed.

Lemma scrape_endpoint_fetch_value_error_witness :
  let st := one_endpoint "e" "example.com" (JArr []) in
  exists cfg,
    cached_schemas st !! "e" = Some cfg /\
    requests_get Demo.strict (length (fetches st)) (cfg_url cfg)
      = Err (ValueError "Invalid URL: No scheme supplied") /\
    scrape_endpoint Demo.strict "e" st
    = (Ok {| status := 404; payload := ErrorBody "Invalid URL: No scheme supplied" |},
       log_fetch (cfg_url cfg) st).
Proof.
  intros st. eexists. split; [reflexivity|]. split; [reflexivity|].
  exact (scrape_endpoint_fetch_value_error Demo.strict "e" st _ _ eq_refl eq_refl).
Defined.



(** X23.  Whatever happens, [POST /api/analyze] with a url makes at most
    one inference call and at most two fetches, both of that url: one for
    the analysis unless the structure is cached, one for the replay. *)
Theorem analyze_webpage_calls (W : World) (u q : string) (st : state) :
  let st' := snd (analyze_webpage W (Some u) (Some q) st) in
  (completions st' = completions st \/ completions st' = S (completions st)) /\
  exists new,
    fetches st' = (new ++ fetches st)%list /\
    (length new <= 2)%nat /\
    (forall x, In x new -> x = u).
Proof.
  cbn zeta. rewrite analyze_webpage_unfold.
  destruct (String.eqb u "" || String.eqb q "")%bool.
  { split; [by left|]. exists []. by repeat split; [cbn; lia | intros ? []]. }
  destruct (generate_effects W u q st) as (Hf & Hc & _).
  destruct (analyze_effects W u st) as [_ Ha]. cbn zeta in *.
  assert (exists new0, fetches (snd (generate_api_endpoint W u q st)) = (new0 ++ fetches st)%list
                       /\ (length new0 <= 1)%nat /\ forall x, In x new0 -> x = u)
    as (new0 & Hnew0 & Hlen0 & Hall0).
  { rewrite Hf. destruct Ha as [-> | ->].
    - exists []. by repeat split; [cbn; lia | intros ? []].
    - exists [u]. repeat split; [cbn; lia|]. by intros x [<-|[]]. }
  destruct (generate_api_endpoint W u q st) as [[[id cfg]|e] st1] eqn:Hg; cbn [fst snd] in *.
  - destruct (generate_ok_registered W u q st st1 id cfg Hg) as (_ & Hreg & Hu & _).
    destruct (execute_registered W id st1 cfg Hreg) as [Hs _].
    destruct (execute_scraping W id st1) as [[results|e] st2]; cbn [snd] in *; subst st2;
      cbn [completions fetches log_fetch]; (split; [exact Hc|]);
      exists (u :: new0); rewrite Hu, Hnew0;
      (repeat split; [cbn [length]; lia|]); intros x [<-|Hx]; auto.
  - split; [exact Hc|]. exists new0. repeat split; auto; lia.
Qed.

(* ===================================================================== *)
(** ** Further properties: the prompt *)
(* ===================================================================== *)

(** X24.  The prompt is a fixed text with two holes: the serialised
    structure and, after it, the query, both inserted as they are; the
    instructions on the format of the answer come last, after the
    query. *)
Theorem prompt_template :
  exists head middle tail,
    (forall W structure query,
        _create_selector_prompt W structure query
        = head +:+ json_dumps W structure +:+ middle +:+ query +:+ tail) /\
    tail = newline +:+ newline +:+ PyStr.join newline prompt_format.
Proof.
  eexists _, _, _. split; [|reflexivity].
  intros W structure query. unfold _create_selector_prompt.
  cbn [app PyStr.join prompt_format].
  instantiate (1 := newline +:+ newline +:+ "        User Query:" +:+ newline +:+ "        ").
  instantiate (1 := newline
    +:+ "        Given the following webpage structure and user query, generate appropriate CSS/XPath selectors:"
    +:+ newline +:+ newline +:+ "        Webpage Structure:" +:+ newline +:+ "        ").
  reflexivity.
Qed.
